(** * Pomodoro timer page (src/app/page.tsx): a shallow embedding

    The React component [PomodoroTimer] is modelled as a state record holding
    every [useState] cell, and one step function per user action or timer
    callback.  A step runs the handler (its batched [setX] calls), then the
    effect [useEffect(() => setTimeLeft(durations[mode]), [durations, mode])]
    when one of its dependencies changed.  The interval effect is modelled by
    [tick]: an interval exists only while [isRunning && timeLeft > 0] (the
    guard of the effect), and each firing runs the [setTimeLeft] updater once.
    In this first part JavaScript numbers are modelled as mathematical
    integers ([Z]): this agrees with the page as long as every number it
    computes stays an integer of magnitude at most [2^53], where doubles are
    exact.  Module [Dbl] at the end models the same page over IEEE-754
    doubles, with rounding and Infinity, for the properties that depend on
    large values. *)

From Stdlib Require Import ZArith String Ascii List Bool Lia QArith Qminmax.
Import ListNotations.
Open Scope Z_scope.

(** ** Data model *)

Inductive TimerMode := focus | short_break | long_break.

Definition TimerMode_eqb (a b : TimerMode) : bool :=
  match a, b with
  | focus, focus | short_break, short_break | long_break, long_break => true
  | _, _ => false
  end.

(** [Record<TimerMode, number>] *)
Record Durations := mkDurations {
  d_focus : Z;
  d_short_break : Z;
  d_long_break : Z
}.

Definition dur_get (d : Durations) (m : TimerMode) : Z :=
  match m with
  | focus => d_focus d
  | short_break => d_short_break d
  | long_break => d_long_break d
  end.

(** [{ ...prev, [m]: v }] *)
Definition dur_set (d : Durations) (m : TimerMode) (v : Z) : Durations :=
  match m with
  | focus => mkDurations v (d_short_break d) (d_long_break d)
  | short_break => mkDurations (d_focus d) v (d_long_break d)
  | long_break => mkDurations (d_focus d) (d_short_break d) v
  end.

Definition Durations_eqb (a b : Durations) : bool :=
  (d_focus a =? d_focus b) && (d_short_break a =? d_short_break b)
  && (d_long_break a =? d_long_break b).

Definition DEFAULT_DURATIONS : Durations :=
  mkDurations (25 * 60) (5 * 60) (15 * 60).

Record DailyTask := mkTask {
  id : string;
  name : string;
  targetMinutes : Z;
  completedMinutes : Z
}.

Definition DEFAULT_TASKS : list DailyTask :=
  [ mkTask "learning" "Learning" 240 0;
    mkTask "coding" "Python Coding / DSA" 180 0;
    mkTask "aptitude" "Aptitude" 60 0 ].

(** The component's state cells. *)
Record State := mkState {
  durations : Durations;
  showSettings : bool;
  tempDurations : Durations;
  mode : TimerMode;
  timeLeft : Z;
  isRunning : bool;
  isComplete : bool;
  dailyTasks : list DailyTask;
  selectedTaskId : string
}.

Definition init : State :=
  mkState DEFAULT_DURATIONS false DEFAULT_DURATIONS focus
    (d_focus DEFAULT_DURATIONS) false false DEFAULT_TASKS "learning".

(** Setters for the cells touched by the handlers. *)
Definition setTimer (s : State) (tl : Z) (r c : bool) : State :=
  mkState (durations s) (showSettings s) (tempDurations s) (mode s)
    tl r c (dailyTasks s) (selectedTaskId s).

Definition setIsRunning (s : State) (r : bool) : State :=
  setTimer s (timeLeft s) r (isComplete s).

Definition setTimeLeft (s : State) (tl : Z) : State :=
  setTimer s tl (isRunning s) (isComplete s).

Definition setMode (s : State) (m : TimerMode) : State :=
  mkState (durations s) (showSettings s) (tempDurations s) m
    (timeLeft s) (isRunning s) (isComplete s) (dailyTasks s) (selectedTaskId s).

Definition setDurations (s : State) (d : Durations) : State :=
  mkState d (showSettings s) (tempDurations s) (mode s)
    (timeLeft s) (isRunning s) (isComplete s) (dailyTasks s) (selectedTaskId s).

Definition setShowSettings (s : State) (b : bool) : State :=
  mkState (durations s) b (tempDurations s) (mode s)
    (timeLeft s) (isRunning s) (isComplete s) (dailyTasks s) (selectedTaskId s).

Definition setTempDurations (s : State) (d : Durations) : State :=
  mkState (durations s) (showSettings s) d (mode s)
    (timeLeft s) (isRunning s) (isComplete s) (dailyTasks s) (selectedTaskId s).

Definition setDailyTasks (s : State) (ts : list DailyTask) : State :=
  mkState (durations s) (showSettings s) (tempDurations s) (mode s)
    (timeLeft s) (isRunning s) (isComplete s) ts (selectedTaskId s).

Definition setSelectedTaskId (s : State) (i : string) : State :=
  mkState (durations s) (showSettings s) (tempDurations s) (mode s)
    (timeLeft s) (isRunning s) (isComplete s) (dailyTasks s) i.

(** ** Number.parseInt (radix omitted), on ASCII strings

    [None] stands for NaN.  Leading white space is skipped, one sign is
    accepted, a [0x]/[0X] prefix switches to radix 16, and the longest
    prefix of digits is read; no digit gives NaN.  The result is the exact
    integer read; [Dbl.numberParseInt] rounds it to the nearest double. *)

Definition is_ws (c : ascii) : bool :=
  let n := nat_of_ascii c in
  (Nat.eqb n 32 || Nat.eqb n 9 || Nat.eqb n 10 || Nat.eqb n 11
   || Nat.eqb n 12 || Nat.eqb n 13 || Nat.eqb n 160)%bool.

Definition digit_val (c : ascii) : Z :=
  let n := Z.of_nat (nat_of_ascii c) in
  if (48 <=? n) && (n <=? 57) then n - 48
  else if (97 <=? n) && (n <=? 122) then n - 87
  else if (65 <=? n) && (n <=? 90) then n - 55
  else 36.

Fixpoint skip_ws (l : list ascii) : list ascii :=
  match l with
  | c :: r => if is_ws c then skip_ws r else l
  | [] => []
  end.

(** Reads the longest prefix of radix-[radix] digits; [None] if empty. *)
Fixpoint read_digits (radix : Z) (acc : option Z) (l : list ascii) : option Z :=
  match l with
  | c :: r =>
      let v := digit_val c in
      if v <? radix then
        read_digits radix (Some (match acc with Some a => a | None => 0 end * radix + v)) r
      else acc
  | [] => acc
  end.

Definition parseInt (str : string) : option Z :=
  let l := skip_ws (list_ascii_of_string str) in
  let '(sign, l) :=
    match l with
    | "-"%char :: r => (-1, r)
    | "+"%char :: r => (1, r)
    | _ => (1, l)
    end in
  let '(radix, l) :=
    match l with
    | "0"%char :: c :: r =>
        if (Ascii.eqb c "x"%char || Ascii.eqb c "X"%char)%bool
        then (16, r) else (10, l)
    | _ => (10, l)
    end in
  match read_digits radix None l with
  | Some v => Some (sign * v)
  | None => None
  end.

(** [Number.parseInt(value) || 0]: NaN and 0 are both falsy. *)
Definition parseInt_or_0 (str : string) : Z :=
  match parseInt str with
  | Some z => z
  | None => 0
  end.

(** ** Handlers *)

Definition handleModeChange (s : State) (newMode : TimerMode) : State :=
  setTimer (setMode s newMode) (dur_get (durations s) newMode) false false.

Definition handleStart (s : State) : State :=
  setTimer s (timeLeft s) true false.

Definition handlePause (s : State) : State :=
  setIsRunning s false.

Definition handleReset (s : State) : State :=
  setTimer s (dur_get (durations s) (mode s)) false false.

Definition handleSaveDurations (s : State) : State :=
  let s1 := setShowSettings (setDurations s (tempDurations s)) false in
  setTimer s1 (dur_get (tempDurations s) (mode s)) false false.

Definition handleResetDurations (s : State) : State :=
  setTempDurations s DEFAULT_DURATIONS.

Definition handleDurationChange (s : State) (m : TimerMode) (value : string) : State :=
  let minutes := parseInt_or_0 value in
  setTempDurations s (dur_set (tempDurations s) m (Z.max 1 minutes * 60)).

Definition handleResetDailyTasks (s : State) : State :=
  setDailyTasks s DEFAULT_TASKS.

(** The settings button: [setShowSettings(!showSettings); setTempDurations(durations)]. *)
Definition toggleSettings (s : State) : State :=
  setTempDurations (setShowSettings s (negb (showSettings s))) (durations s).

(** The task row button: [setSelectedTaskId(task.id)]. *)
Definition selectTask (s : State) (i : string) : State :=
  setSelectedTaskId s i.

(** ** The interval effect *)

(** The [setDailyTasks] updater of the completion branch. *)
Definition creditTask (selected : string) (minutes : Z) (task : DailyTask) : DailyTask :=
  if String.eqb (id task) selected
  then mkTask (id task) (name task) (targetMinutes task) (completedMinutes task + minutes)
  else task.

Definition creditTasks (s : State) (prevTasks : list DailyTask) : list DailyTask :=
  map (creditTask (selectedTaskId s) (dur_get (durations s) (mode s) / 60)) prevTasks.

(** The [setInterval] callback: the [setTimeLeft] updater and the state
    updates it queues. *)
Definition intervalCallback (s : State) : State :=
  let prev := timeLeft s in
  if prev <=? 1 then
    setTimer (setDailyTasks s (creditTasks s (dailyTasks s))) 0 false true
  else setTimeLeft s (prev - 1).

(** The effect arms an interval only when [isRunning && timeLeft > 0]. *)
Definition armed (s : State) : bool := isRunning s && (0 <? timeLeft s).

Definition tick (s : State) : State :=
  if armed s then intervalCallback s else s.

(** ** Events and the step function *)

Inductive Event :=
| ModeChange (m : TimerMode)
| Start
| Pause
| Reset
| SaveDurations
| ResetDurations
| DurationChange (m : TimerMode) (value : string)
| ResetDailyTasks
| SelectTask (i : string)
| ToggleSettings
| Tick.

Definition handle (s : State) (e : Event) : State :=
  match e with
  | ModeChange m => handleModeChange s m
  | Start => handleStart s
  | Pause => handlePause s
  | Reset => handleReset s
  | SaveDurations => handleSaveDurations s
  | ResetDurations => handleResetDurations s
  | DurationChange m v => handleDurationChange s m v
  | ResetDailyTasks => handleResetDailyTasks s
  | SelectTask i => selectTask s i
  | ToggleSettings => toggleSettings s
  | Tick => tick s
  end.

(** [useEffect(() => setTimeLeft(durations[mode]), [durations, mode])],
    run after the render that follows a state change. *)
Definition syncEffect (before after : State) : State :=
  if Durations_eqb (durations before) (durations after)
     && TimerMode_eqb (mode before) (mode after)
  then after
  else setTimeLeft after (dur_get (durations after) (mode after)).

Definition step (s : State) (e : Event) : State :=
  syncEffect s (handle s e).

Definition run (s : State) (es : list Event) : State :=
  fold_left step es s.

Definition ticks (n : nat) (s : State) : State :=
  Nat.iter n (fun x => step x Tick) s.

Definition reachable (s : State) : Prop :=
  exists es, s = run init es.

Definition learning_minutes (s : State) : option Z :=
  match find (fun t => String.eqb (id t) "learning") (dailyTasks s) with
  | Some t => Some (completedMinutes t)
  | None => None
  end.

Example parse_ex1 : parseInt "-5" = Some (-5). Proof. reflexivity. Qed.
Example parse_ex2 : parseInt "abc" = None. Proof. reflexivity. Qed.
Example parse_ex3 : parseInt " 0x1F" = Some 31. Proof. reflexivity. Qed.
Example parse_ex4 : parseInt "12.5" = Some 12. Proof. reflexivity. Qed.
Example run_ex : learning_minutes (run init (Start :: repeat Tick 1500)) = Some 25.
Proof. vm_compute. reflexivity. Qed.
Example run_ex2 : learning_minutes (run init (ModeChange short_break :: Start :: repeat Tick 300)) = Some 5.
Proof. vm_compute. reflexivity. Qed.

(** ** Display helpers *)

(** The character of a decimal digit [0 <= d < 10]. *)
Definition digit_char (d : Z) : ascii := ascii_of_nat (48 + Z.to_nat d).

(** Decimal digits of [n >= 0], most significant first; [fuel] bounds the
    number of digits. *)
Fixpoint digits_fuel (fuel : nat) (n : Z) : list ascii :=
  match fuel with
  | O => []
  | S f => (if n <? 10 then [] else digits_fuel f (n / 10)) ++ [digit_char (n mod 10)]
  end.

(** The bit length of [n] bounds its number of decimal digits. *)
Definition digits_of (n : Z) : list ascii := digits_fuel (S (Z.to_nat (Z.log2 n))) n.

(** [Number.prototype.toString()] on an integer: its decimal digits, which
    is what JavaScript prints for integers of magnitude below [2^53]. *)
Definition toString (n : Z) : list ascii :=
  if n <? 0 then "-"%char :: digits_of (- n) else digits_of n.

(** [str.padStart(2, "0")] *)
Definition padStart2 (l : list ascii) : list ascii :=
  repeat "0"%char (2 - length l) ++ l.

(** [formatTime]: [Math.floor(seconds / 60)] is [Z.div]; [seconds % 60] is
    the truncated remainder [Z.rem]. *)
Definition formatTime (seconds : Z) : string :=
  let mins := seconds / 60 in
  let secs := Z.rem seconds 60 in
  string_of_list_ascii (padStart2 (toString mins) ++ ":"%char :: padStart2 (toString secs)).

(** [formatMinutes] *)
Definition formatMinutes (minutes : Z) : string :=
  let hours := minutes / 60 in
  let mins := Z.rem minutes 60 in
  string_of_list_ascii
    (if 0 <? hours
     then toString hours ++ "h"%char :: " "%char :: toString mins ++ ["m"%char]
     else toString mins ++ ["m"%char]).

(** Readers of the displayed texts (not part of the page): they read the
    numbers back with [parseInt]. *)
Fixpoint after_char (c : ascii) (l : list ascii) : option (list ascii) :=
  match l with
  | [] => None
  | x :: r => if Ascii.eqb x c then Some r else after_char c r
  end.

Definition readTime (str : string) : option Z :=
  match parseInt str, after_char ":"%char (list_ascii_of_string str) with
  | Some m, Some r =>
      match parseInt (string_of_list_ascii r) with
      | Some sec => Some (m * 60 + sec)
      | None => None
      end
  | _, _ => None
  end.

Definition readMinutes (str : string) : option Z :=
  match parseInt str, after_char "h"%char (list_ascii_of_string str) with
  | Some h, Some r =>
      match parseInt (string_of_list_ascii r) with
      | Some m => Some (h * 60 + m)
      | None => None
      end
  | Some m, None => Some m
  | None, _ => None
  end.

(** [progressPercent = Math.min((completedMinutes / targetMinutes) * 100, 100)]. *)
Definition progressPercent (task : DailyTask) : Q :=
  Qmin (inject_Z (completedMinutes task) / inject_Z (targetMinutes task) * 100) 100.

(** The fields of a task that no handler changes. *)
Definition task_shape (t : DailyTask) : string * string * Z :=
  (id t, name t, targetMinutes t).

Definition ledger_inv (ts : list DailyTask) : Prop :=
  map task_shape ts = map task_shape DEFAULT_TASKS /\
  Forall (fun t => 0 <= completedMinutes t) ts.

(** ** Basic lemmas about the step function *)

Lemma Durations_eqb_refl (d : Durations) : Durations_eqb d d = true.
Proof. destruct d; unfold Durations_eqb; simpl; rewrite !Z.eqb_refl; reflexivity. Qed.

Lemma TimerMode_eqb_refl (m : TimerMode) : TimerMode_eqb m m = true.
Proof. destruct m; reflexivity. Qed.

Lemma sync_same (before after : State) :
  durations after = durations before -> mode after = mode before ->
  syncEffect before after = after.
Proof.
  intros Hd Hm. unfold syncEffect.
  rewrite Hd, Hm, Durations_eqb_refl, TimerMode_eqb_refl. reflexivity.
Qed.

Lemma setTimeLeft_setTimeLeft (s : State) (a b : Z) :
  setTimeLeft (setTimeLeft s a) b = setTimeLeft s b.
Proof. destruct s; reflexivity. Qed.

Lemma step_tick_idle (s : State) : armed s = false -> step s Tick = s.
Proof.
  intros Ha. unfold step, handle, tick. rewrite Ha. apply sync_same; reflexivity.
Qed.

Lemma step_tick_dec (s : State) :
  armed s = true -> 1 < timeLeft s ->
  step s Tick = setTimeLeft s (timeLeft s - 1).
Proof.
  intros Ha Hl. unfold step, handle, tick. rewrite Ha. unfold intervalCallback.
  destruct (timeLeft s <=? 1) eqn:E; [apply Z.leb_le in E; lia|].
  apply sync_same; reflexivity.
Qed.

Lemma step_tick_term (s : State) :
  armed s = true -> timeLeft s <= 1 ->
  step s Tick = setTimer (setDailyTasks s (creditTasks s (dailyTasks s))) 0 false true.
Proof.
  intros Ha Hl. unfold step, handle, tick. rewrite Ha. unfold intervalCallback.
  destruct (timeLeft s <=? 1) eqn:E; [|apply Z.leb_gt in E; lia].
  apply sync_same; reflexivity.
Qed.

Lemma armed_true (s : State) :
  armed s = true <-> isRunning s = true /\ 0 < timeLeft s.
Proof.
  unfold armed. rewrite andb_true_iff, Z.ltb_lt. tauto.
Qed.

Lemma ticks_S (n : nat) (s : State) : ticks (S n) s = step (ticks n s) Tick.
Proof. reflexivity. Qed.

(** While the countdown has not reached 1, each tick only decrements. *)
Lemma ticks_countdown (s : State) (k : nat) :
  isRunning s = true -> Z.of_nat k < timeLeft s ->
  ticks k s = setTimeLeft s (timeLeft s - Z.of_nat k).
Proof.
  intros Hr. induction k as [|k IH]; intros Hk.
  - destruct s; unfold setTimeLeft, setTimer; simpl. f_equal. lia.
  - rewrite ticks_S, IH by lia.
    rewrite step_tick_dec.
    + rewrite setTimeLeft_setTimeLeft. f_equal. simpl. lia.
    + apply armed_true. split; [exact Hr|]. simpl. lia.
    + simpl. lia.
Qed.

Lemma start_after_mode (s : State) (m : TimerMode) :
  step (step s (ModeChange m)) Start =
  setTimer (setMode s m) (dur_get (durations s) m) true false.
Proof.
  assert (H1 : step s (ModeChange m) =
               setTimer (setMode s m) (dur_get (durations s) m) false false).
  { unfold step, handle, handleModeChange, syncEffect. simpl.
    destruct (Durations_eqb (durations s) (durations s) && TimerMode_eqb (mode s) m);
      reflexivity. }
  rewrite H1. unfold step, handle, handleStart. apply sync_same; reflexivity.
Qed.

(** ** C1: completion credit and the mode *)

(** C1 (counterexample): a short-break countdown, started from the initial
    state, credits 5 minutes to the selected task "learning" on its terminal tick. *)
Lemma C1_short_break_credits :
  let s := run init [ModeChange short_break; Start] in
  mode s = short_break /\ learning_minutes s = Some 0 /\
  isComplete (ticks 300 s) = true /\ isComplete (ticks 299 s) = false /\
  learning_minutes (ticks 300 s) = Some 5.
Proof. vm_compute. repeat split. Qed.

(** C1 (amended): in every mode, the terminal tick of a countdown credits
    [durations[mode] / 60] minutes to every task whose id is the selected id;
    no other tick, and no other field of a task, is affected. *)
Theorem C1_credit_every_mode (s : State) :
  armed s = true -> timeLeft s <= 1 ->
  dailyTasks (step s Tick) =
  map (creditTask (selectedTaskId s) (dur_get (durations s) (mode s) / 60)) (dailyTasks s).
Proof.
  intros Ha Hl. rewrite step_tick_term by assumption. reflexivity.
Qed.

Lemma C1_credit_every_mode_witness :
  let s := ticks 899 (run init [ModeChange long_break; Start]) in
  (armed s = true /\ timeLeft s <= 1) /\
  dailyTasks (step s Tick) =
  map (creditTask (selectedTaskId s) (dur_get (durations s) (mode s) / 60)) (dailyTasks s).
Proof.
  intros s. split.
  - split; [vm_compute; reflexivity | apply Z.leb_le; vm_compute; reflexivity].
  - apply C1_credit_every_mode;
      [vm_compute; reflexivity | apply Z.leb_le; vm_compute; reflexivity].
Defined.

(** ** C2: start while complete *)

(** C2 (counterexample): after a focus countdown completes, [handleStart]
    is not ignored: it sets [isRunning] to true and clears [isComplete]. *)
Lemma C2_start_after_complete :
  let s := run init (Start :: repeat Tick 1500) in
  isComplete s = true /\ isRunning s = false /\ timeLeft s = 0 /\
  isRunning (step s Start) = true /\ isComplete (step s Start) = false /\
  step s Start <> s.
Proof.
  vm_compute. repeat split; discriminate.
Qed.

(** C2 (amended): from any state with [isComplete = true], start sets
    [isRunning = true] and [isComplete = false] and changes nothing else
    (remaining time, mode, durations, tasks and selection are kept). *)
Theorem C2_start_when_complete (s : State) :
  isComplete s = true ->
  step s Start = setTimer s (timeLeft s) true false.
Proof.
  intros _. unfold step, handle, handleStart. apply sync_same; reflexivity.
Qed.

Lemma C2_start_when_complete_witness :
  let s := run init (Start :: repeat Tick 1500) in
  isComplete s = true /\ step s Start = setTimer s (timeLeft s) true false.
Proof.
  intros s. split.
  - vm_compute. reflexivity.
  - apply C2_start_when_complete. vm_compute. reflexivity.
Defined.

(** ** C3: countdown exactness *)

(** ** C4: only the terminal tick credits *)

Lemma sync_tasks (b a : State) : dailyTasks (syncEffect b a) = dailyTasks a.
Proof. unfold syncEffect. destruct (_ && _); reflexivity. Qed.

(** The events that neither restore the countdown nor reset the ledger. *)
Definition keeps_countdown (e : Event) : bool :=
  match e with
  | Start | Pause | Tick | DurationChange _ _ | ResetDurations
  | SelectTask _ | ToggleSettings => true
  | ModeChange _ | Reset | SaveDurations | ResetDailyTasks => false
  end.

Lemma step_at_zero (s : State) (e : Event) :
  timeLeft s = 0 -> keeps_countdown e = true ->
  timeLeft (step s e) = 0 /\ dailyTasks (step s e) = dailyTasks s.
Proof.
  intros H0 Hk. destruct e; try discriminate Hk;
    try (unfold step; rewrite sync_same by reflexivity; split; [exact H0|reflexivity]).
  rewrite step_tick_idle; [split; [exact H0|reflexivity]|].
  unfold armed. rewrite H0. apply andb_false_r.
Qed.

Lemma run_cons (s : State) (e : Event) (es : list Event) :
  run s (e :: es) = run (step s e) es.
Proof. reflexivity. Qed.

(** C4: every event other than the ledger reset leaves every task unchanged,
    except a tick taking the countdown from 1 to 0 (which stops the timer and
    marks it complete); and once the countdown is at 0, no sequence of
    events that does not restore it (start, pause, ticks, settings edits,
    task selection) changes any task. *)
Theorem C4_credit_only_on_terminal_tick :
  (forall (s : State) (e : Event), e <> ResetDailyTasks ->
     dailyTasks (step s e) = dailyTasks s \/
     (e = Tick /\ isRunning s = true /\ timeLeft s = 1 /\
      timeLeft (step s e) = 0 /\ isRunning (step s e) = false /\
      isComplete (step s e) = true)) /\
  (forall (s : State) (es : list Event), timeLeft s = 0 ->
     forallb keeps_countdown es = true ->
     dailyTasks (run s es) = dailyTasks s).
Proof.
  split.
  - intros s e Hne. destruct e;
      try (left; unfold step; rewrite sync_tasks; reflexivity).
    + exfalso. apply Hne. reflexivity.
    + destruct (armed s) eqn:Ha.
      * pose proof Ha as Ha'. apply armed_true in Ha' as [Hr Hp].
        destruct (Z_le_gt_dec (timeLeft s) 1) as [Hl|Hl].
        -- right. rewrite step_tick_term by assumption.
           repeat split; [exact Hr | lia].
        -- left. rewrite step_tick_dec by (try assumption; lia). reflexivity.
      * left. rewrite step_tick_idle by assumption. reflexivity.
  - intros s es. revert s. induction es as [|e es IH]; intros s H0 Hall.
    + reflexivity.
    + simpl in Hall. apply andb_true_iff in Hall as [He Hes].
      destruct (step_at_zero s e H0 He) as [H1 H2].
      rewrite run_cons, IH by assumption. exact H2.
Qed.

(** ** C5: the credit arithmetic *)

Lemma nth_error_map_credit (sel : string) (q : Z) (ts : list DailyTask) (i : nat) :
  nth_error (map (creditTask sel q) ts) i = option_map (creditTask sel q) (nth_error ts i).
Proof. apply nth_error_map. Qed.

Lemma map_credit_absent (sel : string) (q : Z) (ts : list DailyTask) :
  (forall t, In t ts -> id t <> sel) -> map (creditTask sel q) ts = ts.
Proof.
  induction ts as [|t ts IH]; intros H; [reflexivity|]. simpl.
  rewrite IH by (intros u Hu; apply H; right; exact Hu).
  unfold creditTask. destruct (String.eqb (id t) sel) eqn:E.
  - apply String.eqb_eq in E. exfalso. apply (H t); [left; reflexivity | exact E].
  - reflexivity.
Qed.

(** C5: on the terminal tick, the ledger keeps its length; each task whose id
    is the selected id gains exactly [durations[mode] / 60] completed minutes
    (no cap at [targetMinutes]), every other task is unchanged; and if no task
    has the selected id, the ledger is unchanged. *)
Theorem C5_credit_arithmetic (s : State) :
  armed s = true -> timeLeft s <= 1 ->
  let q := dur_get (durations s) (mode s) / 60 in
  length (dailyTasks (step s Tick)) = length (dailyTasks s) /\
  (forall (i : nat) (t : DailyTask), nth_error (dailyTasks s) i = Some t ->
     nth_error (dailyTasks (step s Tick)) i =
     Some (if String.eqb (id t) (selectedTaskId s)
           then mkTask (id t) (name t) (targetMinutes t) (completedMinutes t + q)
           else t)) /\
  ((forall t, In t (dailyTasks s) -> id t <> selectedTaskId s) ->
     dailyTasks (step s Tick) = dailyTasks s).
Proof.
  intros Ha Hl q. rewrite step_tick_term by assumption. simpl.
  unfold creditTasks. split; [|split].
  - apply length_map.
  - intros i t Hi. rewrite nth_error_map_credit, Hi. reflexivity.
  - apply map_credit_absent.
Qed.

Lemma C5_credit_arithmetic_witness :
  let s := ticks 1499 (run init [Start]) in
  (armed s = true /\ timeLeft s <= 1) /\
  dailyTasks (step s Tick) =
    [ mkTask "learning" "Learning" 240 25;
      mkTask "coding" "Python Coding / DSA" 180 0;
      mkTask "aptitude" "Aptitude" 60 0 ] /\
  (let q := dur_get (durations s) (mode s) / 60 in
   q = 25 /\ length (dailyTasks (step s Tick)) = length (dailyTasks s)).
Proof.
  intros s.
  assert (Ha : armed s = true) by (vm_compute; reflexivity).
  assert (Hl : timeLeft s <= 1) by (apply Z.leb_le; vm_compute; reflexivity).
  split; [split; assumption|]. split; [vm_compute; reflexivity|].
  split; [vm_compute; reflexivity|].
  apply (C5_credit_arithmetic s Ha Hl).
Defined.

(** ** Invariants of the reachable states *)

Definition whole_minutes (d : Durations) : Prop :=
  forall m, 60 <= dur_get d m /\ dur_get d m mod 60 = 0.

Definition timer_inv (s : State) : Prop :=
  0 <= timeLeft s <= dur_get (durations s) (mode s) /\
  (isRunning s && isComplete s) = false.

Definition page_inv (s : State) : Prop :=
  timer_inv s /\ whole_minutes (durations s) /\ whole_minutes (tempDurations s).

Lemma whole_minutes_default : whole_minutes DEFAULT_DURATIONS.
Proof. intros []; simpl; split; first [lia | reflexivity]. Qed.

Lemma whole_minutes_set (d : Durations) (m : TimerMode) (x : Z) :
  whole_minutes d -> whole_minutes (dur_set d m (Z.max 1 x * 60)).
Proof.
  intros Hd m'.
  assert (Hv : 60 <= Z.max 1 x * 60 /\ (Z.max 1 x * 60) mod 60 = 0)
    by (split; [lia | apply Z_mod_mult]).
  destruct m, m'; simpl; first [exact Hv | apply (Hd focus) | apply (Hd short_break)
                                | apply (Hd long_break)].
Qed.

Lemma page_inv_init : page_inv init.
Proof.
  split; [|split; apply whole_minutes_default].
  split; [simpl; lia | reflexivity].
Qed.

Lemma handle_inv (s : State) (e : Event) : page_inv s -> page_inv (handle s e).
Proof.
  intros [[Ht Hrc] [Hd Htmp]].
  destruct e; simpl.
  - (* ModeChange *)
    split; [split; [specialize (Hd m); simpl; lia | reflexivity] | split; assumption].
  - (* Start *)
    split; [split; [exact Ht | reflexivity] | split; assumption].
  - (* Pause *)
    split; [split; [exact Ht | reflexivity] | split; assumption].
  - (* Reset *)
    split; [split; [specialize (Hd (mode s)); simpl; lia | reflexivity] | split; assumption].
  - (* SaveDurations *)
    split; [split; [specialize (Htmp (mode s)); simpl; lia | reflexivity] | split; assumption].
  - (* ResetDurations *)
    split; [split; assumption | split; [assumption | apply whole_minutes_default]].
  - (* DurationChange *)
    split; [split; assumption | split; [assumption | apply whole_minutes_set; assumption]].
  - (* ResetDailyTasks *)
    split; [split; assumption | split; assumption].
  - (* SelectTask *)
    split; [split; assumption | split; assumption].
  - (* ToggleSettings *)
    split; [split; assumption | split; assumption].
  - (* Tick *)
    unfold tick. destruct (armed s) eqn:Ha; [|split; [split|split]; assumption].
    unfold intervalCallback. destruct (timeLeft s <=? 1) eqn:E.
    + split; [split; [specialize (Hd (mode s)); simpl; lia | reflexivity]
             | split; assumption].
    + apply Z.leb_gt in E.
      split; [split; [simpl; lia | exact Hrc] | split; assumption].
Qed.

Lemma sync_inv (b a : State) : page_inv a -> page_inv (syncEffect b a).
Proof.
  intros Hp. unfold syncEffect. destruct (_ && _); [exact Hp|].
  destruct Hp as [[Ht Hrc] [Hd Htmp]].
  split; [split; [specialize (Hd (mode a)); simpl; lia | exact Hrc] | split; assumption].
Qed.

Lemma step_inv (s : State) (e : Event) : page_inv s -> page_inv (step s e).
Proof. intros Hp. apply sync_inv, handle_inv, Hp. Qed.

Lemma run_inv (s : State) (es : list Event) : page_inv s -> page_inv (run s es).
Proof.
  revert s. induction es as [|e es IH]; intros s Hp; [exact Hp|].
  rewrite run_cons. apply IH, step_inv, Hp.
Qed.

Lemma reachable_inv (s : State) : reachable s -> page_inv s.
Proof. intros [es ->]. apply run_inv, page_inv_init. Qed.

Lemma reachable_step (s : State) (e : Event) : reachable s -> reachable (step s e).
Proof.
  intros [es ->]. exists (es ++ [e]). unfold run. rewrite fold_left_app. reflexivity.
Qed.

Lemma sync_complete (b a : State) :
  isComplete (syncEffect b a) = isComplete a /\ isRunning (syncEffect b a) = isRunning a.
Proof. unfold syncEffect. destruct (_ && _); split; reflexivity. Qed.

Lemma sync_timeLeft (b a : State) :
  timeLeft (syncEffect b a) = timeLeft a \/
  timeLeft (syncEffect b a) = dur_get (durations a) (mode a).
Proof. unfold syncEffect. destruct (_ && _); [left|right]; reflexivity. Qed.

(** ** C6: timer invariants *)

(** C6: every reachable state satisfies [0 <= timeLeft <= durations[mode]]
    and [not (isRunning && isComplete)], and so does its successor under every
    event; [isComplete] turns from false to true only on a tick taking the
    countdown from 1 to 0; reset and mode change set it to false. *)
Theorem C6_timer_invariants (s : State) :
  reachable s ->
  timer_inv s /\
  (forall e, timer_inv (step s e)) /\
  (forall e, isComplete s = false -> isComplete (step s e) = true ->
     e = Tick /\ isRunning s = true /\ timeLeft s = 1) /\
  isComplete (step s Reset) = false /\
  (forall m, isComplete (step s (ModeChange m)) = false).
Proof.
  intros Hr. pose proof (reachable_inv s Hr) as Hp.
  split; [apply Hp|]. split.
  - intros e. apply (step_inv s e Hp).
  - destruct Hp as [[Ht _] _]. split; [|split].
    + intros e Hc0 Hc1. unfold step in Hc1.
      rewrite (proj1 (sync_complete s (handle s e))) in Hc1.
      destruct e; simpl in Hc1; try congruence.
      unfold tick in Hc1. destruct (armed s) eqn:Ha; [|congruence].
      apply armed_true in Ha as [Hrun Hpos].
      unfold intervalCallback in Hc1. destruct (timeLeft s <=? 1) eqn:E.
      * apply Z.leb_le in E. repeat split; [exact Hrun | lia].
      * simpl in Hc1. congruence.
    + unfold step. rewrite (proj1 (sync_complete _ _)). reflexivity.
    + intros m. unfold step. rewrite (proj1 (sync_complete _ _)). reflexivity.
Qed.

Lemma C6_timer_invariants_witness :
  reachable (ticks 10 (run init [ModeChange long_break; Start])) /\
  timer_inv (ticks 10 (run init [ModeChange long_break; Start])).
Proof.
  assert (Hr : reachable (ticks 10 (run init [ModeChange long_break; Start]))).
  { exists ([ModeChange long_break; Start] ++ repeat Tick 10). vm_compute. reflexivity. }
  split; [exact Hr|]. exact (proj1 (C6_timer_invariants _ Hr)).
Defined.

(** ** C8: save commits, discard does not *)

Definition is_edit (e : Event) : bool :=
  match e with DurationChange _ _ => true | _ => false end.

Lemma run_edits (s : State) (es : list Event) :
  forallb is_edit es = true ->
  exists d, run s es = setTempDurations s d.
Proof.
  revert s. induction es as [|e es IH]; intros s Hall.
  - exists (tempDurations s). destruct s; reflexivity.
  - simpl in Hall. apply andb_true_iff in Hall as [He Hes].
    destruct e; try discriminate He.
    rewrite run_cons.
    assert (E : step s (DurationChange m value) =
                setTempDurations s (dur_set (tempDurations s) m (Z.max 1 (parseInt_or_0 value) * 60)))
      by (unfold step; apply sync_same; reflexivity).
    rewrite E. destruct (IH (setTempDurations s (dur_set (tempDurations s) m (Z.max 1 (parseInt_or_0 value) * 60))) Hes) as [d Hd]. exists d. rewrite Hd. destruct s; reflexivity.
Qed.

(** C8: after any sequence of duration edits, discarding to the defaults
    gives the original state with only the pending table replaced by the
    defaults (active table, mode, timer and tasks untouched); saving instead
    copies the pending table into the active one and sets [timeLeft] to the
    new active duration of the current mode, [isRunning = false] and
    [isComplete = false], keeping the mode, the pending table and the tasks. *)
Theorem C8_save_commits_discard_does_not (s : State) (es : list Event) :
  forallb is_edit es = true ->
  run s (es ++ [ResetDurations]) = setTempDurations s DEFAULT_DURATIONS /\
  let p := run s es in
  let s' := step p SaveDurations in
  durations s' = tempDurations p /\ tempDurations s' = tempDurations p /\
  mode s' = mode s /\ timeLeft s' = dur_get (tempDurations p) (mode s) /\
  isRunning s' = false /\ isComplete s' = false /\
  dailyTasks s' = dailyTasks s /\ selectedTaskId s' = selectedTaskId s.
Proof.
  intros Hall. destruct (run_edits s es Hall) as [d Hd].
  split.
  - unfold run. rewrite fold_left_app. fold (run s es). rewrite Hd. simpl.
    unfold step. rewrite sync_same by reflexivity. destruct s; reflexivity.
  - cbv zeta. rewrite Hd.
    unfold step, handle, handleSaveDurations, syncEffect.
    destruct (_ && _); repeat split.
Qed.

Lemma C8_save_commits_discard_does_not_witness :
  forallb is_edit [DurationChange focus "50"; DurationChange long_break "x"] = true /\
  run init ([DurationChange focus "50"; DurationChange long_break "x"] ++ [ResetDurations])
    = setTempDurations init DEFAULT_DURATIONS.
Proof.
  assert (H : forallb is_edit [DurationChange focus "50"; DurationChange long_break "x"] = true)
    by reflexivity.
  split; [exact H|].
  exact (proj1 (C8_save_commits_discard_does_not init _ H)).
Defined.

(** ** C9: start at zero is a stuck running state *)

(** C9: ticks fire only while [isRunning && timeLeft > 0]; starting a timer
    whose [timeLeft] is 0 gives [isRunning = true], [isComplete = false],
    [timeLeft = 0], and no number of ticks then changes the state (no
    completion, no credit). *)
Theorem C9_start_at_zero_stuck (s : State) :
  timeLeft s = 0 ->
  let s1 := step s Start in
  isRunning s1 = true /\ isComplete s1 = false /\ timeLeft s1 = 0 /\
  mode s1 = mode s /\ dailyTasks s1 = dailyTasks s /\
  forall n : nat, ticks n s1 = s1.
Proof.
  intros H0 s1.
  assert (E : s1 = setTimer s (timeLeft s) true false)
    by (unfold s1, step; apply sync_same; reflexivity).
  rewrite E. simpl. repeat split; [exact H0|].
  induction n as [|n IH]; [reflexivity|].
  rewrite ticks_S, IH. apply step_tick_idle.
  unfold armed. simpl. rewrite H0. reflexivity.
Qed.

Lemma C9_start_at_zero_stuck_witness :
  let s := run init (Start :: repeat Tick 1500) in
  timeLeft s = 0 /\ ticks 5000 (step s Start) = step s Start.
Proof.
  intros s.
  assert (H0 : timeLeft s = 0) by (vm_compute; reflexivity).
  split; [exact H0|].
  exact (proj2 (proj2 (proj2 (proj2 (proj2 (C9_start_at_zero_stuck s H0))))) 5000%nat).
Defined.

(** ** Extras: the display helpers *)

Example formatTime_ex1 : formatTime 1500 = "25:00"%string. Proof. reflexivity. Qed.
Example formatTime_ex2 : formatTime 65 = "01:05"%string. Proof. reflexivity. Qed.
Example formatTime_ex3 : formatTime (-1) = "-1:-1"%string. Proof. reflexivity. Qed.
Example formatMinutes_ex1 : formatMinutes 125 = "2h 5m"%string. Proof. reflexivity. Qed.
Example formatMinutes_ex2 : formatMinutes 0 = "0m"%string. Proof. reflexivity. Qed.
Example readTime_ex : readTime "01:05" = Some 65. Proof. reflexivity. Qed.

Definition is_digit (c : ascii) : Prop := digit_val c < 10.

Lemma digit_val_lt10 (c : ascii) :
  is_digit c -> 48 <= Z.of_nat (nat_of_ascii c) <= 57 /\
                digit_val c = Z.of_nat (nat_of_ascii c) - 48.
Proof.
  unfold is_digit, digit_val. intros H.
  destruct ((48 <=? _) && (_ <=? 57)) eqn:E1.
  - apply andb_true_iff in E1 as [E1 E2]. apply Z.leb_le in E1, E2. lia.
  - destruct ((97 <=? _) && (_ <=? 122)) eqn:E2.
    + apply andb_true_iff in E2 as [E2 _]. apply Z.leb_le in E2. lia.
    + destruct ((65 <=? _) && (_ <=? 90)) eqn:E3; [|lia].
      apply andb_true_iff in E3 as [E3 _]. apply Z.leb_le in E3. lia.
Qed.

(** A digit is one of the ten characters ["0"] .. ["9"]. *)
Lemma digit_cases (c : ascii) :
  is_digit c ->
  c = "0"%char \/ c = "1"%char \/ c = "2"%char \/ c = "3"%char \/ c = "4"%char \/
  c = "5"%char \/ c = "6"%char \/ c = "7"%char \/ c = "8"%char \/ c = "9"%char.
Proof.
  intros H. destruct (digit_val_lt10 c H) as [Hr _].
  rewrite <- (ascii_nat_embedding c).
  assert (Hn : (nat_of_ascii c = 48 \/ nat_of_ascii c = 49 \/ nat_of_ascii c = 50 \/
                nat_of_ascii c = 51 \/ nat_of_ascii c = 52 \/ nat_of_ascii c = 53 \/
                nat_of_ascii c = 54 \/ nat_of_ascii c = 55 \/ nat_of_ascii c = 56 \/
                nat_of_ascii c = 57)%nat) by lia.
  destruct Hn as [->|[->|[->|[->|[->|[->|[->|[->|[->| ->]]]]]]]]];
    [left|right;left|do 2 right;left|do 3 right;left|do 4 right;left
    |do 5 right;left|do 6 right;left|do 7 right;left|do 8 right;left|do 9 right];
    reflexivity.
Qed.

Lemma digit_char_val (d : Z) : 0 <= d < 10 -> digit_val (digit_char d) = d.
Proof.
  intros H.
  assert (Hd : d = 0 \/ d = 1 \/ d = 2 \/ d = 3 \/ d = 4 \/ d = 5 \/ d = 6 \/
               d = 7 \/ d = 8 \/ d = 9) by lia.
  destruct Hd as [->|[->|[->|[->|[->|[->|[->|[->|[->| ->]]]]]]]]]; reflexivity.
Qed.

Lemma digits_fuel_digits (f : nat) (n : Z) :
  0 <= n -> Forall is_digit (digits_fuel f n).
Proof.
  revert n. induction f as [|f IH]; intros n Hn; simpl; [constructor|].
  apply Forall_app. split.
  - destruct (n <? 10); [constructor|]. apply IH. apply Z.div_pos; lia.
  - constructor; [|constructor]. unfold is_digit.
    rewrite digit_char_val; pose proof (Z.mod_pos_bound n 10); lia.
Qed.

Lemma digits_fuel_nonempty (f : nat) (n : Z) : digits_fuel (S f) n <> [].
Proof. simpl. intros H. apply app_eq_nil in H as [_ H]. discriminate H. Qed.

Lemma read_digits_cons (radix : Z) (acc : option Z) (c : ascii) (l : list ascii) :
  read_digits radix acc (c :: l) =
  if digit_val c <? radix
  then read_digits radix (Some (match acc with Some a => a | None => 0 end * radix + digit_val c)) l
  else acc.
Proof. reflexivity. Qed.

(** Reading the digits of [n] after a zero accumulator gives [n]. *)
Lemma read_digits_fuel (f : nat) (n : Z) (rest : list ascii) :
  0 <= n < 2 ^ Z.of_nat f ->
  read_digits 10 (Some 0) (digits_fuel f n ++ rest) = read_digits 10 (Some n) rest.
Proof.
  revert n rest. induction f as [|f IH]; intros n rest Hn.
  - cbn [Z.of_nat Z.pow] in Hn. assert (n = 0) as -> by (simpl in Hn; lia). reflexivity.
  - pose proof (Z.mod_pos_bound n 10) as Hm.
    cbn [digits_fuel]. rewrite <- app_assoc. cbn [app].
    destruct (n <? 10) eqn:E.
    + apply Z.ltb_lt in E. cbn [app]. rewrite read_digits_cons, digit_char_val by lia.
      replace (n mod 10 <? 10) with true by (symmetry; apply Z.ltb_lt; lia).
      rewrite Z.mod_small by lia. reflexivity.
    + apply Z.ltb_ge in E. rewrite IH.
      * rewrite read_digits_cons, digit_char_val by lia.
        replace (n mod 10 <? 10) with true by (symmetry; apply Z.ltb_lt; lia).
        f_equal. f_equal. rewrite Z.mul_comm. symmetry. apply Z.div_mod. lia.
      * rewrite Nat2Z.inj_succ, Z.pow_succ_r in Hn by lia.
        split; [apply Z.div_pos; lia|]. apply Z.div_lt_upper_bound; lia.
Qed.

Lemma digits_of_fuel (n : Z) : 0 <= n -> 0 <= n < 2 ^ Z.of_nat (S (Z.to_nat (Z.log2 n))).
Proof.
  intros Hn. split; [exact Hn|].
  rewrite Nat2Z.inj_succ, Z2Nat.id by apply Z.log2_nonneg.
  destruct (Z.eq_dec n 0) as [->|Hne]; [reflexivity|].
  apply Z.log2_spec. lia.
Qed.

Definition no_x (c : ascii) : Prop :=
  Ascii.eqb c "x"%char = false /\ Ascii.eqb c "X"%char = false.

Lemma is_digit_neq (c x : ascii) : is_digit c -> 10 <= digit_val x -> Ascii.eqb c x = false.
Proof.
  intros Hc Hx. destruct (Ascii.eqb c x) eqn:E; [|reflexivity].
  apply Ascii.eqb_eq in E. subst. unfold is_digit in Hc. lia.
Qed.

Lemma digit_no_x (c : ascii) : is_digit c -> no_x c.
Proof.
  intros Hc. split; apply is_digit_neq; try exact Hc; apply Z.leb_le; reflexivity.
Qed.

Lemma read_digits_none_some (c : ascii) (l : list ascii) :
  is_digit c -> read_digits 10 None (c :: l) = read_digits 10 (Some 0) (c :: l).
Proof.
  intros Hc. rewrite !read_digits_cons.
  replace (digit_val c <? 10) with true by (symmetry; apply Z.ltb_lt; exact Hc).
  reflexivity.
Qed.

Lemma read_zeros (k : nat) (l : list ascii) :
  read_digits 10 (Some 0) (repeat "0"%char k ++ l) = read_digits 10 (Some 0) l.
Proof.
  induction k as [|k IH]; [reflexivity|].
  cbn [repeat app]. rewrite read_digits_cons. exact IH.
Qed.

Lemma read_stop (a : Z) (c : ascii) (r : list ascii) :
  10 <= digit_val c -> read_digits 10 (Some a) (c :: r) = Some a.
Proof.
  intros Hc. rewrite read_digits_cons.
  replace (digit_val c <? 10) with false by (symmetry; apply Z.ltb_ge; exact Hc).
  reflexivity.
Qed.

Lemma parseInt_digit_head (c : ascii) (l : list ascii) :
  is_digit c -> Forall no_x l ->
  parseInt (string_of_list_ascii (c :: l)) = read_digits 10 None (c :: l).
Proof.
  intros Hc Hl. unfold parseInt. rewrite list_ascii_of_string_of_list_ascii.
  destruct l as [|c2 r].
  - destruct (digit_cases c Hc) as [->|[->|[->|[->|[->|[->|[->|[->|[->| ->]]]]]]]]];
      reflexivity.
  - inversion Hl as [|? ? [Hx HX] _]; subst.
    destruct (digit_cases c Hc) as [->|[->|[->|[->|[->|[->|[->|[->|[->| ->]]]]]]]]];
      simpl skip_ws; cbv iota beta; try rewrite Hx, HX; cbn [orb]; cbv iota beta;
      destruct (read_digits _ _ _); try rewrite Z.mul_1_l; reflexivity.
Qed.

Lemma parseInt_prefix (l rest : list ascii) :
  Forall is_digit l -> l <> [] -> Forall no_x rest ->
  parseInt (string_of_list_ascii (l ++ rest)) = read_digits 10 (Some 0) (l ++ rest).
Proof.
  intros Hd Hne Hr. destruct l as [|c l']; [contradiction|].
  inversion Hd as [|? ? Hc Hd']; subst. cbn [app].
  assert (Hx : Forall no_x (l' ++ rest)).
  { apply Forall_app. split; [eapply Forall_impl; [apply digit_no_x | exact Hd'] | exact Hr]. }
  rewrite (parseInt_digit_head c _ Hc Hx), (read_digits_none_some c _ Hc).
  reflexivity.
Qed.

Lemma zeros_digits (k : nat) : Forall is_digit (repeat "0"%char k).
Proof.
  apply Forall_forall. intros x Hx. apply repeat_spec in Hx. subst.
  unfold is_digit. apply Z.ltb_lt. reflexivity.
Qed.

Lemma digits_of_digits (n : Z) : 0 <= n -> Forall is_digit (digits_of n).
Proof. apply digits_fuel_digits. Qed.

(** [parseInt] reads back a zero-padded decimal numeral followed by a
    character that is not a digit (or by nothing). *)
Lemma parseInt_numeral (k : nat) (n : Z) (rest : list ascii) :
  0 <= n -> Forall no_x rest ->
  (forall c r, rest = c :: r -> 10 <= digit_val c) ->
  parseInt (string_of_list_ascii (repeat "0"%char k ++ digits_of n ++ rest)) = Some n.
Proof.
  intros Hn Hx Hs. rewrite app_assoc, parseInt_prefix.
  - rewrite <- app_assoc, read_zeros. unfold digits_of.
    rewrite read_digits_fuel by (apply digits_of_fuel; exact Hn).
    destruct rest as [|c r]; [reflexivity|]. apply read_stop, (Hs c r eq_refl).
  - apply Forall_app. split; [apply zeros_digits | apply digits_of_digits, Hn].
  - intros H. apply app_eq_nil in H as [_ H]. apply (digits_fuel_nonempty _ n H).
  - exact Hx.
Qed.

Lemma after_char_app (c : ascii) (p r : list ascii) :
  Forall (fun x => Ascii.eqb x c = false) p -> after_char c (p ++ c :: r) = Some r.
Proof.
  induction p as [|x p IH]; intros H.
  - simpl. rewrite Ascii.eqb_refl. reflexivity.
  - inversion H as [|? ? Hx Hp]; subst. simpl. rewrite Hx. apply IH, Hp.
Qed.

Lemma after_char_none (c : ascii) (p : list ascii) :
  Forall (fun x => Ascii.eqb x c = false) p -> after_char c p = None.
Proof.
  induction p as [|x p IH]; intros H; [reflexivity|].
  inversion H as [|? ? Hx Hp]; subst. simpl. rewrite Hx. apply IH, Hp.
Qed.

Lemma pad_not (c : ascii) (n : Z) :
  0 <= n -> 10 <= digit_val c ->
  Forall (fun x => Ascii.eqb x c = false) (padStart2 (digits_of n)).
Proof.
  intros Hn Hc. eapply Forall_impl; [intros x Hx; apply (is_digit_neq x c Hx Hc)|].
  apply Forall_app. split; [apply zeros_digits | apply digits_of_digits, Hn].
Qed.

Lemma pad_no_x (n : Z) : 0 <= n -> Forall no_x (padStart2 (digits_of n)).
Proof.
  intros Hn. eapply Forall_impl; [apply digit_no_x|].
  apply Forall_app. split; [apply zeros_digits | apply digits_of_digits, Hn].
Qed.

Lemma toString_nonneg (n : Z) : 0 <= n -> toString n = digits_of n.
Proof.
  intros Hn. unfold toString. replace (n <? 0) with false by (symmetry; apply Z.ltb_ge; lia).
  reflexivity.
Qed.

Lemma parseInt_space (l : list ascii) :
  parseInt (string_of_list_ascii (" "%char :: l)) = parseInt (string_of_list_ascii l).
Proof. unfold parseInt. rewrite !list_ascii_of_string_of_list_ascii. reflexivity. Qed.

Lemma parseInt_digits_end (k : nat) (n : Z) :
  0 <= n -> parseInt (string_of_list_ascii (repeat "0"%char k ++ digits_of n)) = Some n.
Proof.
  intros Hn. pose proof (parseInt_numeral k n [] Hn (Forall_nil _)) as P.
  rewrite app_nil_r in P. apply P. intros c r H. discriminate H.
Qed.

Lemma parseInt_numeral0 (n : Z) (rest : list ascii) :
  0 <= n -> Forall no_x rest ->
  (forall c r, rest = c :: r -> 10 <= digit_val c) ->
  parseInt (string_of_list_ascii (digits_of n ++ rest)) = Some n.
Proof. apply (parseInt_numeral 0). Qed.

Lemma digit_val_ge (c : ascii) : (10 <=? digit_val c) = true -> 10 <= digit_val c.
Proof. apply Z.leb_le. Qed.

Lemma digits_fuel_short (f : nat) (n : Z) :
  0 <= n < 100 -> (length (digits_fuel f n) <= 2)%nat.
Proof.
  intros Hn. destruct f as [|f]; [simpl; lia|]. cbn [digits_fuel].
  rewrite length_app. cbn [length].
  destruct (n <? 10) eqn:E; [simpl; lia|]. apply Z.ltb_ge in E.
  destruct f as [|f]; [simpl; lia|]. cbn [digits_fuel].
  replace (n / 10 <? 10) with true
    by (symmetry; apply Z.ltb_lt; apply Z.div_lt_upper_bound; lia).
  simpl. lia.
Qed.

Lemma padStart2_length (l : list ascii) : (length l <= 2)%nat -> length (padStart2 l) = 2%nat.
Proof. intros H. unfold padStart2. rewrite length_app, repeat_length. lia. Qed.

(** X2: for [0 <= seconds < 6000], [formatTime] shows exactly five
    characters [MM:SS], the colon at position 2. *)
Theorem formatTime_width (s : Z) :
  0 <= s < 6000 ->
  length (list_ascii_of_string (formatTime s)) = 5%nat /\
  nth_error (list_ascii_of_string (formatTime s)) 2 = Some ":"%char.
Proof.
  intros Hs. unfold formatTime. rewrite list_ascii_of_string_of_list_ascii.
  assert (Hr : Z.rem s 60 = s mod 60) by (apply Z.rem_mod_nonneg; lia).
  pose proof (Z.mod_pos_bound s 60) as Hb.
  assert (Hm : 0 <= s / 60 < 100)
    by (split; [apply Z.div_pos | apply Z.div_lt_upper_bound]; lia).
  rewrite Hr, !toString_nonneg by lia.
  assert (L1 : length (padStart2 (digits_of (s / 60))) = 2%nat)
    by (apply padStart2_length, digits_fuel_short; exact Hm).
  assert (L2 : length (padStart2 (digits_of (s mod 60))) = 2%nat)
    by (apply padStart2_length, digits_fuel_short; lia).
  split.
  - rewrite length_app. cbn [length]. rewrite L1, L2. reflexivity.
  - rewrite nth_error_app2 by lia. rewrite L1. reflexivity.
Qed.

Lemma formatTime_width_witness :
  0 <= 1500 < 6000 /\ length (list_ascii_of_string (formatTime 1500)) = 5%nat.
Proof. split; [lia | apply (proj1 (formatTime_width 1500 ltac:(lia)))]. Defined.

(** X1: for [0 <= seconds < 6000] (below 100 minutes), [parseInt] on the
    text of [formatTime] reads the whole minutes [Math.floor(seconds / 60)];
    the text after the colon is the two-digit [seconds % 60], which
    [parseInt] reads back; together they give the original count. *)
Theorem formatTime_fields (s : Z) :
  0 <= s < 6000 ->
  parseInt (formatTime s) = Some (s / 60) /\
  after_char ":"%char (list_ascii_of_string (formatTime s))
    = Some (padStart2 (toString (s mod 60))) /\
  parseInt (string_of_list_ascii (padStart2 (toString (s mod 60)))) = Some (s mod 60) /\
  readTime (formatTime s) = Some s.
Proof.
  intros Hs. unfold readTime, formatTime.
  assert (Hm : 0 <= s / 60) by (apply Z.div_pos; lia).
  assert (Hr : Z.rem s 60 = s mod 60) by (apply Z.rem_mod_nonneg; lia).
  pose proof (Z.mod_pos_bound s 60) as Hb.
  rewrite Hr, !toString_nonneg by lia.
  assert (P1 : parseInt (string_of_list_ascii
                 (padStart2 (digits_of (s / 60)) ++ ":"%char :: padStart2 (digits_of (s mod 60))))
               = Some (s / 60)).
  { unfold padStart2 at 1. rewrite <- app_assoc. apply parseInt_numeral; [exact Hm| |].
    - constructor; [split; reflexivity | apply pad_no_x; lia].
    - intros c r H. inversion H. apply digit_val_ge. reflexivity. }
  assert (A : after_char ":"%char (list_ascii_of_string (string_of_list_ascii
                 (padStart2 (digits_of (s / 60)) ++ ":"%char :: padStart2 (digits_of (s mod 60)))))
              = Some (padStart2 (digits_of (s mod 60)))).
  { rewrite list_ascii_of_string_of_list_ascii. apply after_char_app.
    apply pad_not; [exact Hm | apply digit_val_ge; reflexivity]. }
  assert (P2 : parseInt (string_of_list_ascii (padStart2 (digits_of (s mod 60)))) = Some (s mod 60))
    by (unfold padStart2; apply parseInt_digits_end; lia).
  split; [exact P1|]. split; [exact A|]. split; [exact P2|].
  rewrite P1, A, P2. f_equal. rewrite Z.mul_comm. symmetry. apply Z.div_mod. lia.
Qed.

Lemma formatTime_fields_witness :
  0 <= 3599 < 6000 /\ readTime (formatTime 3599) = Some 3599.
Proof.
  assert (H : 0 <= 3599 < 6000) by lia.
  split; [exact H | exact (proj2 (proj2 (proj2 (formatTime_fields 3599 H))))].
Defined.

(** X3: for [0 <= minutes < 6000] (below 100 hours), [formatMinutes] shows
    ["Hh Mm"] from one hour on: [parseInt] reads the hours
    [Math.floor(minutes / 60)], and the text after the ["h"] is
    [" " + minutes % 60 + "m"], which [parseInt] reads as the remaining
    minutes; under an hour it shows ["Mm"], read as the minutes, with no
    ["h"].  Either way the text reads back as the original count. *)
Theorem formatMinutes_fields (m : Z) :
  0 <= m < 6000 ->
  (60 <= m ->
   parseInt (formatMinutes m) = Some (m / 60) /\
   after_char "h"%char (list_ascii_of_string (formatMinutes m))
     = Some (" "%char :: toString (m mod 60) ++ ["m"%char]) /\
   parseInt (string_of_list_ascii (" "%char :: toString (m mod 60) ++ ["m"%char]))
     = Some (m mod 60)) /\
  (m < 60 ->
   parseInt (formatMinutes m) = Some m /\
   after_char "h"%char (list_ascii_of_string (formatMinutes m)) = None) /\
  readMinutes (formatMinutes m) = Some m.
Proof.
  intros Hm. unfold readMinutes, formatMinutes.
  assert (Hr : Z.rem m 60 = m mod 60) by (apply Z.rem_mod_nonneg; lia).
  pose proof (Z.mod_pos_bound m 60) as Hb.
  assert (Hh : 0 <= m / 60) by (apply Z.div_pos; lia).
  rewrite Hr, !toString_nonneg by lia.
  assert (Hnx : forall n, 0 <= n -> Forall no_x (digits_of n))
    by (intros n Hn; eapply Forall_impl; [apply digit_no_x | apply digits_of_digits, Hn]).
  assert (Hnc : forall c n, 0 <= n -> (10 <=? digit_val c) = true ->
                 Forall (fun x => Ascii.eqb x c = false) (digits_of n)).
  { intros c n Hn Hc. eapply Forall_impl; [intros x Hx; exact (is_digit_neq x c Hx (digit_val_ge c Hc))|].
    apply digits_of_digits, Hn. }
  assert (P2 : parseInt (string_of_list_ascii (" "%char :: digits_of (m mod 60) ++ ["m"%char]))
               = Some (m mod 60)).
  { rewrite parseInt_space.
    apply parseInt_numeral0; [lia | constructor; [split; reflexivity | constructor] |].
    intros c r H; inversion H; apply digit_val_ge; reflexivity. }
  destruct (0 <? m / 60) eqn:E.
  - apply Z.ltb_lt in E.
    assert (P1 : parseInt (string_of_list_ascii
       (digits_of (m / 60) ++ "h"%char :: " "%char :: digits_of (m mod 60) ++ ["m"%char]))
       = Some (m / 60)).
    { apply (parseInt_numeral 0); [exact Hh| |].
      - constructor; [split; reflexivity|]. constructor; [split; reflexivity|].
        apply Forall_app. split; [apply Hnx; lia|]. constructor; [split; reflexivity | constructor].
      - intros c r H. inversion H. apply digit_val_ge. reflexivity. }
    assert (A : after_char "h"%char (list_ascii_of_string (string_of_list_ascii
       (digits_of (m / 60) ++ "h"%char :: " "%char :: digits_of (m mod 60) ++ ["m"%char])))
       = Some (" "%char :: digits_of (m mod 60) ++ ["m"%char])).
    { rewrite list_ascii_of_string_of_list_ascii. apply after_char_app.
      apply Hnc; [lia | reflexivity]. }
    split; [intros _; split; [exact P1|]; split; [exact A | exact P2]|].
    split; [intros H; pose proof (Z.div_lt_upper_bound m 60 1 ltac:(lia) ltac:(lia)); lia|].
    rewrite P1, A, P2. f_equal. rewrite Z.mul_comm. symmetry. apply Z.div_mod. lia.
  - apply Z.ltb_ge in E.
    assert (Hlt : m mod 60 = m) by (apply Z.mod_small; pose proof (Z.div_mod m 60 ltac:(lia)); lia).
    assert (P1 : parseInt (string_of_list_ascii (digits_of (m mod 60) ++ ["m"%char])) = Some (m mod 60)).
    { apply parseInt_numeral0; [lia | constructor; [split; reflexivity | constructor] |].
      intros c r H; inversion H; apply digit_val_ge; reflexivity. }
    assert (A : after_char "h"%char (list_ascii_of_string
                  (string_of_list_ascii (digits_of (m mod 60) ++ ["m"%char]))) = None).
    { rewrite list_ascii_of_string_of_list_ascii. apply after_char_none.
      apply Forall_app. split; [apply Hnc; [lia | reflexivity]|].
      constructor; [reflexivity | constructor]. }
    split; [intros H; assert (60 <= 60 * (m / 60)) by (pose proof (Z.div_le_lower_bound m 60 1 ltac:(lia) H); lia); lia|].
    split; [intros _; rewrite P1, Hlt in *; split; [reflexivity | exact A]|].
    rewrite P1, A, Hlt. reflexivity.
Qed.

Lemma formatMinutes_fields_witness :
  0 <= 125 < 6000 /\ readMinutes (formatMinutes 125) = Some 125.
Proof.
  assert (H : 0 <= 125 < 6000) by lia.
  split; [exact H | exact (proj2 (proj2 (formatMinutes_fields 125 H)))].
Defined.

(** ** Extras: the task ledger *)

Lemma creditTask_shape (sel : string) (q : Z) (t : DailyTask) :
  task_shape (creditTask sel q t) = task_shape t.
Proof. unfold creditTask. destruct (String.eqb _ _); reflexivity. Qed.

Lemma creditTask_minutes (sel : string) (q : Z) (t : DailyTask) :
  completedMinutes (creditTask sel q t) =
  if String.eqb (id t) sel then completedMinutes t + q else completedMinutes t.
Proof. unfold creditTask. destruct (String.eqb _ _); reflexivity. Qed.

Lemma ledger_inv_default : ledger_inv DEFAULT_TASKS.
Proof. split; [reflexivity|]. repeat constructor; simpl; lia. Qed.

Lemma step_tasks_cases (s : State) (e : Event) :
  dailyTasks (step s e) = dailyTasks s \/
  dailyTasks (step s e) = DEFAULT_TASKS \/
  dailyTasks (step s e) = creditTasks s (dailyTasks s).
Proof.
  unfold step. rewrite sync_tasks. destruct e; try (left; reflexivity).
  - right; left; reflexivity.
  - simpl. unfold tick. destruct (armed s); [|left; reflexivity].
    unfold intervalCallback. destruct (_ <=? _); [right; right | left]; reflexivity.
Qed.

Lemma ledger_inv_step (s : State) (e : Event) :
  page_inv s -> ledger_inv (dailyTasks s) -> ledger_inv (dailyTasks (step s e)).
Proof.
  intros [_ [Hd _]] [Hsh Hnn].
  destruct (step_tasks_cases s e) as [->|[->| ->]]; [split; assumption | apply ledger_inv_default|].
  unfold creditTasks. split.
  - rewrite map_map. erewrite map_ext by apply creditTask_shape. exact Hsh.
  - apply Forall_map. eapply Forall_impl; [|exact Hnn].
    intros t Ht. cbv beta in Ht |- *. rewrite creditTask_minutes. destruct (String.eqb _ _); [|exact Ht].
    specialize (Hd (mode s)).
    assert (0 <= dur_get (durations s) (mode s) / 60) by (apply Z.div_pos; lia). lia.
Qed.

Lemma ledger_inv_run (s : State) (es : list Event) :
  page_inv s -> ledger_inv (dailyTasks s) -> ledger_inv (dailyTasks (run s es)).
Proof.
  revert s. induction es as [|e es IH]; intros s Hp Hl; [exact Hl|].
  rewrite run_cons. apply IH; [apply step_inv, Hp | apply ledger_inv_step; assumption].
Qed.

(** X4: in every reachable state the ledger holds the three default tasks in
    their order, with their ids, names and targets unchanged, and every
    [completedMinutes] is non-negative. *)
Theorem ledger_shape_reachable (s : State) :
  reachable s ->
  map task_shape (dailyTasks s) = map task_shape DEFAULT_TASKS /\
  Forall (fun t => 0 <= completedMinutes t) (dailyTasks s).
Proof. intros [es ->]. apply ledger_inv_run; [apply page_inv_init | apply ledger_inv_default]. Qed.

Lemma ledger_shape_reachable_witness :
  reachable (ticks 1500 (run init [Start])) /\
  Forall (fun t => 0 <= completedMinutes t) (dailyTasks (ticks 1500 (run init [Start]))).
Proof.
  assert (Hr : reachable (ticks 1500 (run init [Start])))
    by (exists ([Start] ++ repeat Tick 1500); vm_compute; reflexivity).
  split; [exact Hr | exact (proj2 (ledger_shape_reachable _ Hr))].
Defined.

(** X5: apart from the "Reset Tasks" button, no event lowers a task's
    completed minutes: from a reachable state, every event other than
    [ResetDailyTasks] keeps each task (same id) with at least as many
    completed minutes. *)
Theorem completed_minutes_monotone (s : State) (e : Event) :
  reachable s -> e <> ResetDailyTasks ->
  Forall2 (fun a b => id a = id b /\ completedMinutes a <= completedMinutes b)
          (dailyTasks s) (dailyTasks (step s e)).
Proof.
  intros Hr Hne. destruct (reachable_inv s Hr) as [_ [Hd _]].
  assert (Hrefl : forall ts, Forall2 (fun a b => id a = id b /\ completedMinutes a <= completedMinutes b) ts ts)
    by (induction ts; constructor; [split; [reflexivity | lia] | assumption]).
  assert (Hc : dailyTasks (step s e) = dailyTasks s \/
               dailyTasks (step s e) = creditTasks s (dailyTasks s)).
  { unfold step. rewrite sync_tasks. destruct e; try (left; reflexivity).
    - contradiction.
    - simpl. unfold tick. destruct (armed s); [|left; reflexivity].
      unfold intervalCallback. destruct (_ <=? _); [right | left]; reflexivity. }
  destruct Hc as [->| ->]; [apply Hrefl|].
  unfold creditTasks. specialize (Hd (mode s)).
  assert (0 <= dur_get (durations s) (mode s) / 60) by (apply Z.div_pos; lia).
  induction (dailyTasks s) as [|t ts IH]; constructor; [|exact IH].
  unfold creditTask. destruct (String.eqb _ _); simpl; split; try reflexivity; lia.
Qed.

Lemma completed_minutes_monotone_witness :
  reachable (ticks 299 (run init [ModeChange short_break; Start])) /\ Tick <> ResetDailyTasks /\
  Forall2 (fun a b => id a = id b /\ completedMinutes a <= completedMinutes b)
    (dailyTasks (ticks 299 (run init [ModeChange short_break; Start])))
    (dailyTasks (step (ticks 299 (run init [ModeChange short_break; Start])) Tick)).
Proof.
  assert (Hr : reachable (ticks 299 (run init [ModeChange short_break; Start])))
    by (exists ([ModeChange short_break; Start] ++ repeat Tick 299); vm_compute; reflexivity).
  assert (Hn : Tick <> ResetDailyTasks) by discriminate.
  split; [exact Hr|]. split; [exact Hn|]. exact (completed_minutes_monotone _ _ Hr Hn).
Defined.

(** ** Extras: task progress bars *)

Lemma percent_bounds (c t : Z) :
  0 < t -> 0 <= c ->
  (0 <= Qmin (inject_Z c / inject_Z t * 100) 100 <= 100)%Q /\
  ((Qmin (inject_Z c / inject_Z t * 100) 100 == 100)%Q <-> t <= c).
Proof.
  intros Ht Hc. destruct t as [|p|p]; try lia.
  unfold Qmin, GenericMinMax.gmin, Qcompare, Qdiv.
  cbn [Qnum Qden Qinv Qmult inject_Z]. rewrite ?Pos2Z.inj_mul.
  case Z.compare_spec; intros Hcmp;
    unfold Qle, Qeq; cbn [Qnum Qden Qinv Qmult inject_Z]; rewrite ?Pos2Z.inj_mul;
    (split; [split; nia | split; intros; nia]).
Qed.

Lemma ledger_target_pos (ts : list DailyTask) (t : DailyTask) :
  map task_shape ts = map task_shape DEFAULT_TASKS -> In t ts -> 0 < targetMinutes t.
Proof.
  intros Hsh Hin. apply (in_map task_shape) in Hin. rewrite Hsh in Hin.
  simpl in Hin. unfold task_shape in Hin.
  destruct Hin as [H|[H|[H|[]]]]; injection H as _ _ <-; lia.
Qed.

(** X7: in every reachable state, the bar width of each task,
    [Math.min((completedMinutes / targetMinutes) * 100, 100)], lies in
    [[0, 100]] and is 100 exactly when the task has reached its target. *)
Theorem task_progress_bounds (s : State) (t : DailyTask) :
  reachable s -> In t (dailyTasks s) ->
  (0 <= progressPercent t <= 100)%Q /\
  ((progressPercent t == 100)%Q <-> targetMinutes t <= completedMinutes t).
Proof.
  intros [es ->] Hin.
  destruct (ledger_inv_run init es page_inv_init ledger_inv_default) as [Hsh Hnn].
  apply percent_bounds.
  - apply (ledger_target_pos _ _ Hsh Hin).
  - rewrite Forall_forall in Hnn. apply (Hnn t Hin).
Qed.

Lemma task_progress_bounds_witness :
  reachable (ticks 1500 (run init [Start])) /\
  In (mkTask "learning" "Learning" 240 25) (dailyTasks (ticks 1500 (run init [Start]))) /\
  (0 <= progressPercent (mkTask "learning" "Learning" 240 25) <= 100)%Q.
Proof.
  assert (Hr : reachable (ticks 1500 (run init [Start])))
    by (exists ([Start] ++ repeat Tick 1500); vm_compute; reflexivity).
  assert (Hi : In (mkTask "learning" "Learning" 240 25) (dailyTasks (ticks 1500 (run init [Start]))))
    by (vm_compute; left; reflexivity).
  split; [exact Hr|]. split; [exact Hi|].
  exact (proj1 (task_progress_bounds _ _ Hr Hi)).
Defined.

(** ** Extras: how the handlers compose *)

(** X8: Start twice is Start once; Pause twice is Pause once; Pause on a
    stopped timer changes nothing; Pause then Start is Start (pausing loses
    no time); and after Pause no number of ticks changes the state. *)
Theorem start_pause_compose (s : State) :
  step (step s Start) Start = step s Start /\
  step (step s Pause) Pause = step s Pause /\
  (isRunning s = false -> step s Pause = s) /\
  step (step s Pause) Start = step s Start /\
  (forall n, ticks n (step s Pause) = step s Pause).
Proof.
  assert (ES : forall x, step x Start = setTimer x (timeLeft x) true false)
    by (intros x; unfold step; apply sync_same; reflexivity).
  assert (EP : forall x, step x Pause = setIsRunning x false)
    by (intros x; unfold step; apply sync_same; reflexivity).
  split; [rewrite !ES; destruct s; reflexivity|].
  split; [rewrite !EP; destruct s; reflexivity|].
  split; [intros H; rewrite EP; destruct s; simpl in *; subst; reflexivity|].
  split; [rewrite ES, EP, ES; destruct s; reflexivity|].
  intros n. induction n as [|n IH]; [reflexivity|].
  rewrite ticks_S, IH. apply step_tick_idle. rewrite EP. reflexivity.
Qed.

(** X9: choosing the mode that is already selected is exactly Reset. *)
Theorem mode_change_same_is_reset (s : State) :
  step s (ModeChange (mode s)) = step s Reset.
Proof.
  unfold step, handle. rewrite !sync_same by reflexivity.
  destruct s; reflexivity.
Qed.

(** X10: opening the settings and saving without an edit resets the timer of
    the current mode like Reset, with the pending table re-seeded from the
    active one and the panel hidden; the active table is unchanged. *)
Theorem open_and_save_is_reset (s : State) :
  step (step s ToggleSettings) SaveDurations =
  setShowSettings (setTempDurations (step s Reset) (durations s)) false.
Proof.
  assert (E1 : step s ToggleSettings = toggleSettings s)
    by (unfold step; apply sync_same; reflexivity).
  assert (E2 : step s Reset = handleReset s)
    by (unfold step; apply sync_same; reflexivity).
  rewrite E1, E2. unfold step. rewrite sync_same by reflexivity.
  destruct s; reflexivity.
Qed.

(** * The page over IEEE-754 doubles

    JavaScript numbers are binary64 doubles.  Every number the page computes
    is an integer, ±Infinity or NaN: [Number.parseInt] returns an integer or
    NaN, and [*], [-], [+] of integers give an integer before rounding.  A
    finite number is therefore kept as the integer it denotes ([Fin z]), and
    each arithmetic operation rounds its exact result to the nearest double
    (ties to even), overflowing to ±Infinity.  The only non-integer
    intermediate is [durations[mode] / 60], which the page floors at once;
    [js_floor_div] rounds the quotient and then floors it.  The sign of zero
    is not kept: [-0] and [0] behave alike in every operation the page uses. *)
Module Dbl.

Inductive num := Fin (z : Z) | PInf | NInf | NaN.

Definition num_eqb (a b : num) : bool :=
  match a, b with
  | Fin x, Fin y => x =? y
  | PInf, PInf | NInf, NInf | NaN, NaN => true
  | _, _ => false
  end.

(** The nearest double to the integer [x], ties to even.  Integers up to
    [2^53] in magnitude are doubles; above, the 53 leading bits are kept and
    the rest rounded; a result of [2^1024] or more overflows. *)
Definition round (x : Z) : num :=
  let a := Z.abs x in
  if a <=? 2 ^ 53 then Fin x else
  let sh := Z.log2 a - 52 in
  let q := a / 2 ^ sh in
  let r := a mod 2 ^ sh in
  let half := 2 ^ (sh - 1) in
  let q' := if (half <? r) || ((r =? half) && Z.odd q) then q + 1 else q in
  let v := q' * 2 ^ sh in
  if 2 ^ 1024 <=? v then (if x <? 0 then NInf else PInf)
  else Fin (Z.sgn x * v).

(** [Math.floor(x / y)] for finite [x] and [y <> 0]: the quotient is rounded
    to a double (53 significant bits, ties to even, subnormals below
    [2^-1022]), then floored.  An exact integer quotient of magnitude at most
    [2^53] is its own double. *)
Definition floor_div_fin (x y : Z) : num :=
  if (x mod y =? 0) && (Z.abs (x / y) <=? 2 ^ 53) then Fin (x / y) else
  let sg := Z.sgn x * Z.sgn y in
  let a := Z.abs x in
  let b := Z.abs y in
  (* k = floor(log2(a / b)) *)
  let k := if b <=? a then Z.log2 (a / b) else - Z.log2_up ((b + a - 1) / a) in
  let sh := Z.max (k - 52) (-1074) in
  let nu := if 0 <=? sh then a else a * 2 ^ (- sh) in
  let de := if 0 <=? sh then b * 2 ^ sh else b in
  let q := nu / de in
  let r := nu mod de in
  let q' := if (de <? 2 * r) || ((2 * r =? de) && Z.odd q) then q + 1 else q in
  if 0 <=? sh then
    (if 2 ^ 1024 <=? q' * 2 ^ sh then (if sg <? 0 then NInf else PInf)
     else Fin (sg * q' * 2 ^ sh))
  else Fin ((sg * q') / 2 ^ (- sh)).

Definition js_neg (a : num) : num :=
  match a with Fin x => Fin (- x) | PInf => NInf | NInf => PInf | NaN => NaN end.

(** [a + b] *)
Definition js_add (a b : num) : num :=
  match a, b with
  | NaN, _ | _, NaN => NaN
  | Fin x, Fin y => round (x + y)
  | PInf, NInf | NInf, PInf => NaN
  | PInf, _ | _, PInf => PInf
  | NInf, _ | _, NInf => NInf
  end.

(** [a - b] *)
Definition js_sub (a b : num) : num := js_add a (js_neg b).

Definition inf_of_sign (x : Z) : num :=
  if x =? 0 then NaN else if 0 <? x then PInf else NInf.

(** [a * b] *)
Definition js_mul (a b : num) : num :=
  match a, b with
  | NaN, _ | _, NaN => NaN
  | Fin x, Fin y => round (x * y)
  | Fin x, PInf | PInf, Fin x => inf_of_sign x
  | Fin x, NInf | NInf, Fin x => js_neg (inf_of_sign x)
  | PInf, PInf | NInf, NInf => PInf
  | PInf, NInf | NInf, PInf => NInf
  end.

(** [Math.floor(a / b)] *)
Definition js_floor_div (a b : num) : num :=
  match a, b with
  | NaN, _ | _, NaN => NaN
  | Fin x, Fin y => if y =? 0 then inf_of_sign x else floor_div_fin x y
  | Fin _, (PInf | NInf) => Fin 0
  | PInf, Fin y => if 0 <=? y then PInf else NInf
  | NInf, Fin y => if 0 <=? y then NInf else PInf
  | (PInf | NInf), (PInf | NInf) => NaN
  end.

(** [Math.max(1, v)] *)
Definition js_max1 (v : num) : num :=
  match v with
  | NaN => NaN
  | PInf => PInf
  | NInf => Fin 1
  | Fin z => Fin (Z.max 1 z)
  end.

(** [a < b] and [a <= b]; every comparison with NaN is false. *)
Definition js_lt (a b : num) : bool :=
  match a, b with
  | Fin x, Fin y => x <? y
  | Fin _, PInf | NInf, Fin _ | NInf, PInf => true
  | _, _ => false
  end.

Definition js_le (a b : num) : bool :=
  match a, b with
  | NaN, _ | _, NaN => false
  | Fin x, Fin y => x <=? y
  | NInf, _ | _, PInf => true
  | _, _ => false
  end.

(** [Number.parseInt(value)]: the mathematical integer read by [parseInt]
    becomes the nearest double.  For more than 20 significant digits the
    standard lets an engine approximate; V8 rounds correctly, as here. *)
Definition numberParseInt (str : string) : num :=
  match parseInt str with
  | Some z => round z
  | None => NaN
  end.

(** [x || 0] on a number: [0] and NaN are falsy. *)
Definition orZero (v : num) : num :=
  match v with
  | NaN => Fin 0
  | Fin 0 => Fin 0
  | _ => v
  end.

(** ** The state, over doubles *)

Record Durations := mkDurations {
  d_focus : num;
  d_short_break : num;
  d_long_break : num
}.

Definition dur_get (d : Durations) (m : TimerMode) : num :=
  match m with
  | focus => d_focus d
  | short_break => d_short_break d
  | long_break => d_long_break d
  end.

Definition dur_set (d : Durations) (m : TimerMode) (v : num) : Durations :=
  match m with
  | focus => mkDurations v (d_short_break d) (d_long_break d)
  | short_break => mkDurations (d_focus d) v (d_long_break d)
  | long_break => mkDurations (d_focus d) (d_short_break d) v
  end.

Definition Durations_eqb (a b : Durations) : bool :=
  num_eqb (d_focus a) (d_focus b) && num_eqb (d_short_break a) (d_short_break b)
  && num_eqb (d_long_break a) (d_long_break b).

Definition DEFAULT_DURATIONS : Durations :=
  mkDurations (Fin (25 * 60)) (Fin (5 * 60)) (Fin (15 * 60)).

Record DailyTask := mkTask {
  id : string;
  name : string;
  targetMinutes : num;
  completedMinutes : num
}.

Definition DEFAULT_TASKS : list DailyTask :=
  [ mkTask "learning" "Learning" (Fin 240) (Fin 0);
    mkTask "coding" "Python Coding / DSA" (Fin 180) (Fin 0);
    mkTask "aptitude" "Aptitude" (Fin 60) (Fin 0) ].

Record State := mkState {
  durations : Durations;
  showSettings : bool;
  tempDurations : Durations;
  mode : TimerMode;
  timeLeft : num;
  isRunning : bool;
  isComplete : bool;
  dailyTasks : list DailyTask;
  selectedTaskId : string
}.

Definition init : State :=
  mkState DEFAULT_DURATIONS false DEFAULT_DURATIONS focus
    (d_focus DEFAULT_DURATIONS) false false DEFAULT_TASKS "learning".

Definition setTimer (s : State) (tl : num) (r c : bool) : State :=
  mkState (durations s) (showSettings s) (tempDurations s) (mode s)
    tl r c (dailyTasks s) (selectedTaskId s).

Definition setIsRunning (s : State) (r : bool) : State :=
  setTimer s (timeLeft s) r (isComplete s).

Definition setTimeLeft (s : State) (tl : num) : State :=
  setTimer s tl (isRunning s) (isComplete s).

Definition setMode (s : State) (m : TimerMode) : State :=
  mkState (durations s) (showSettings s) (tempDurations s) m
    (timeLeft s) (isRunning s) (isComplete s) (dailyTasks s) (selectedTaskId s).

Definition setDurations (s : State) (d : Durations) : State :=
  mkState d (showSettings s) (tempDurations s) (mode s)
    (timeLeft s) (isRunning s) (isComplete s) (dailyTasks s) (selectedTaskId s).

Definition setShowSettings (s : State) (b : bool) : State :=
  mkState (durations s) b (tempDurations s) (mode s)
    (timeLeft s) (isRunning s) (isComplete s) (dailyTasks s) (selectedTaskId s).

Definition setTempDurations (s : State) (d : Durations) : State :=
  mkState (durations s) (showSettings s) d (mode s)
    (timeLeft s) (isRunning s) (isComplete s) (dailyTasks s) (selectedTaskId s).

Definition setDailyTasks (s : State) (ts : list DailyTask) : State :=
  mkState (durations s) (showSettings s) (tempDurations s) (mode s)
    (timeLeft s) (isRunning s) (isComplete s) ts (selectedTaskId s).

Definition setSelectedTaskId (s : State) (i : string) : State :=
  mkState (durations s) (showSettings s) (tempDurations s) (mode s)
    (timeLeft s) (isRunning s) (isComplete s) (dailyTasks s) i.

(** ** Handlers *)

Definition handleModeChange (s : State) (newMode : TimerMode) : State :=
  setTimer (setMode s newMode) (dur_get (durations s) newMode) false false.

Definition handleStart (s : State) : State :=
  setTimer s (timeLeft s) true false.

Definition handlePause (s : State) : State :=
  setIsRunning s false.

Definition handleReset (s : State) : State :=
  setTimer s (dur_get (durations s) (mode s)) false false.

Definition handleSaveDurations (s : State) : State :=
  let s1 := setShowSettings (setDurations s (tempDurations s)) false in
  setTimer s1 (dur_get (tempDurations s) (mode s)) false false.

Definition handleResetDurations (s : State) : State :=
  setTempDurations s DEFAULT_DURATIONS.

(** [const minutes = Number.parseInt(value) || 0;
     setTempDurations(prev => ({ ...prev, [m]: Math.max(1, minutes) * 60 }))] *)
Definition handleDurationChange (s : State) (m : TimerMode) (value : string) : State :=
  let minutes := orZero (numberParseInt value) in
  setTempDurations s (dur_set (tempDurations s) m (js_mul (js_max1 minutes) (Fin 60))).

Definition handleResetDailyTasks (s : State) : State :=
  setDailyTasks s DEFAULT_TASKS.

Definition toggleSettings (s : State) : State :=
  setTempDurations (setShowSettings s (negb (showSettings s))) (durations s).

Definition selectTask (s : State) (i : string) : State :=
  setSelectedTaskId s i.

(** ** The interval effect *)

(** [{ ...task, completedMinutes: task.completedMinutes + minutes }] for the
    selected task. *)
Definition creditTask (selected : string) (minutes : num) (task : DailyTask) : DailyTask :=
  if String.eqb (id task) selected
  then mkTask (id task) (name task) (targetMinutes task) (js_add (completedMinutes task) minutes)
  else task.

(** [const minutes = Math.floor(durations[mode] / 60)] *)
Definition creditTasks (s : State) (prevTasks : list DailyTask) : list DailyTask :=
  map (creditTask (selectedTaskId s) (js_floor_div (dur_get (durations s) (mode s)) (Fin 60)))
    prevTasks.

(** [if (prev <= 1) { ...; return 0 } return prev - 1] *)
Definition intervalCallback (s : State) : State :=
  let prev := timeLeft s in
  if js_le prev (Fin 1) then
    setTimer (setDailyTasks s (creditTasks s (dailyTasks s))) (Fin 0) false true
  else setTimeLeft s (js_sub prev (Fin 1)).

(** [if (isRunning && timeLeft > 0)] *)
Definition armed (s : State) : bool := isRunning s && js_lt (Fin 0) (timeLeft s).

Definition tick (s : State) : State :=
  if armed s then intervalCallback s else s.

Definition handle (s : State) (e : Event) : State :=
  match e with
  | ModeChange m => handleModeChange s m
  | Start => handleStart s
  | Pause => handlePause s
  | Reset => handleReset s
  | SaveDurations => handleSaveDurations s
  | ResetDurations => handleResetDurations s
  | DurationChange m v => handleDurationChange s m v
  | ResetDailyTasks => handleResetDailyTasks s
  | SelectTask i => selectTask s i
  | ToggleSettings => toggleSettings s
  | Tick => tick s
  end.

Definition syncEffect (before after : State) : State :=
  if Durations_eqb (durations before) (durations after)
     && TimerMode_eqb (mode before) (mode after)
  then after
  else setTimeLeft after (dur_get (durations after) (mode after)).

Definition step (s : State) (e : Event) : State :=
  syncEffect s (handle s e).

Definition run (s : State) (es : list Event) : State :=
  fold_left step es s.

Definition ticks (n : nat) (s : State) : State :=
  Nat.iter n (fun x => step x Tick) s.

Definition reachable (s : State) : Prop :=
  exists es, s = run init es.

Example round_ex1 : round (12000000000000000 - 1) = Fin 12000000000000000.
Proof. vm_compute. reflexivity. Qed.
Example round_ex2 : round (9007199254740991 * 60) = Fin 540431955284459456.
Proof. vm_compute. reflexivity. Qed.
Example round_ex3 : round (2 ^ 1024 - 2 ^ 970) = PInf.
Proof. vm_compute. reflexivity. Qed.
Example round_ex4 : round (2 ^ 1024 - 2 ^ 970 - 1) = Fin (2 ^ 1024 - 2 ^ 971).
Proof. vm_compute. reflexivity. Qed.
Example parse_ex5 : numberParseInt "9007199254740993" = Fin 9007199254740992.
Proof. vm_compute. reflexivity. Qed.
Example floor_div_ex1 : js_floor_div (Fin 540431955284459456) (Fin 60) = Fin 9007199254740991.
Proof. vm_compute. reflexivity. Qed.
Example floor_div_ex2 : js_floor_div (Fin 119) (Fin 60) = Fin 1.
Proof. vm_compute. reflexivity. Qed.
Example floor_div_ex3 : js_floor_div (Fin (-119)) (Fin 60) = Fin (-2).
Proof. vm_compute. reflexivity. Qed.
Example floor_div_ex4 : js_floor_div (Fin 59) (Fin 60) = Fin 0.
Proof. vm_compute. reflexivity. Qed.
Example floor_div_ex5 : js_floor_div (Fin 9007199254740991) (Fin 60) = Fin 150119987579016.
Proof. vm_compute. reflexivity. Qed.

(** ** Rounding lemmas *)

Lemma round_exact (x : Z) : Z.abs x <= 2 ^ 53 -> round x = Fin x.
Proof. intros H. unfold round. apply Z.leb_le in H. rewrite H. reflexivity. Qed.

Lemma round_big (x : Z) :
  2 ^ 53 < x -> round x = PInf \/ exists z, round x = Fin z /\ 2 ^ 53 <= z.
Proof.
  intros Hx. unfold round. rewrite Z.abs_eq by lia.
  replace (x <=? 2 ^ 53) with false by (symmetry; apply Z.leb_gt; lia).
  assert (HL : 53 <= Z.log2 x).
  { rewrite <- (Z.log2_pow2 53) by lia. apply Z.log2_le_mono. lia. }
  pose proof (Z.log2_spec x ltac:(lia)) as [HLo _].
  set (sh := Z.log2 x - 52).
  assert (Hsh : 2 ^ 52 * 2 ^ sh = 2 ^ Z.log2 x)
    by (rewrite <- Z.pow_add_r by lia; f_equal; unfold sh; lia).
  assert (H53 : 2 ^ 53 <= 2 ^ Z.log2 x) by (apply Z.pow_le_mono_r; lia).
  assert (Hp : 0 < 2 ^ sh) by (apply Z.pow_pos_nonneg; unfold sh; lia).
  assert (Hq : 2 ^ 52 <= x / 2 ^ sh) by (apply Z.div_le_lower_bound; lia).
  set (q := x / 2 ^ sh) in *.
  assert (Hq' : forall q', q <= q' -> 2 ^ 53 <= q' * 2 ^ sh) by (intros; nia).
  replace (x <? 0) with false by (symmetry; apply Z.ltb_ge; lia).
  replace (Z.sgn x) with 1 by (symmetry; apply Z.sgn_pos; lia).
  destruct (_ || _);
    (destruct (2 ^ 1024 <=? _); [left; reflexivity | right; eexists; split; [reflexivity|]]);
    rewrite Z.mul_1_l; apply Hq'; lia.
Qed.

Lemma round_nonpos (x : Z) :
  x <= 0 -> round x = NInf \/ exists z, round x = Fin z /\ z <= 0.
Proof.
  intros Hx. unfold round.
  destruct (Z.abs x <=? 2 ^ 53) eqn:E; [right; exists x; split; [reflexivity | exact Hx]|].
  apply Z.leb_gt in E.
  assert (HL : 53 <= Z.log2 (Z.abs x))
    by (rewrite <- (Z.log2_pow2 53) by lia; apply Z.log2_le_mono; lia).
  set (a := Z.abs x) in *. set (sh := Z.log2 a - 52).
  assert (Hp : 0 < 2 ^ sh) by (apply Z.pow_pos_nonneg; unfold sh; lia).
  assert (Hq : 0 <= a / 2 ^ sh) by (apply Z.div_pos; unfold a; lia).
  set (q := a / 2 ^ sh) in *.
  replace (x <? 0) with true by (symmetry; apply Z.ltb_lt; lia).
  replace (Z.sgn x) with (-1) by (symmetry; apply Z.sgn_neg; lia).
  destruct (_ || _);
    (destruct (2 ^ 1024 <=? _); [left; reflexivity | right; eexists; split; [reflexivity|]]);
    apply Z.opp_nonpos_nonneg; apply Z.mul_nonneg_nonneg; lia.
Qed.

(** Every duration edit stores [Math.max(1, minutes) * 60] exactly while
    that product is at most [2^53]. *)
Lemma edit_value (z : Z) :
  z * 60 <= 2 ^ 53 -> js_mul (js_max1 (orZero (round z))) (Fin 60) = Fin (Z.max 1 z * 60).
Proof.
  intros Hz. destruct (Z.le_gt_cases z 0) as [Hn|Hp].
  - replace (Z.max 1 z) with 1 by lia.
    destruct (round_nonpos z Hn) as [->|[w [-> Hw]]]; [reflexivity|].
    destruct w as [|p|p]; [reflexivity | lia | reflexivity].
  - rewrite round_exact by lia. destruct z as [|p|p]; try lia.
    cbn [orZero js_max1 js_mul]. apply round_exact. lia.
Qed.

Lemma floor_div_60 (n : Z) : Z.abs n <= 2 ^ 53 -> js_floor_div (Fin (n * 60)) (Fin 60) = Fin n.
Proof.
  intros Hn. unfold js_floor_div. cbn [Z.eqb]. unfold floor_div_fin.
  rewrite Z_mod_mult, Z.div_mul by lia. cbn [Z.eqb andb].
  apply Z.leb_le in Hn. rewrite Hn. reflexivity.
Qed.

(** ** Step lemmas *)

Lemma num_eqb_refl (a : num) : num_eqb a a = true.
Proof. destruct a; simpl; try reflexivity. apply Z.eqb_refl. Qed.

Lemma sync_same_dbl (before after : State) :
  durations before = durations after -> mode before = mode after ->
  syncEffect before after = after.
Proof.
  intros Hd Hm. unfold syncEffect. rewrite Hd, Hm.
  destruct (durations after) as [a b c]. unfold Durations_eqb. simpl.
  rewrite !num_eqb_refl, TimerMode_eqb_refl. reflexivity.
Qed.

Lemma sync_timer (before after : State) :
  (syncEffect before after = after \/
   syncEffect before after = setTimeLeft after (dur_get (durations after) (mode after))).
Proof. unfold syncEffect. destruct (_ && _); [left | right]; reflexivity. Qed.

Lemma step_tick (s : State) : step s Tick = tick s.
Proof.
  unfold step. cbn [handle]. apply sync_same_dbl; unfold tick, intervalCallback;
    (destruct (armed s); [destruct (js_le (timeLeft s) (Fin 1))|]); reflexivity.
Qed.

Lemma ticks_S_dbl (n : nat) (s : State) : ticks (S n) s = step (ticks n s) Tick.
Proof. reflexivity. Qed.

Lemma setTimeLeft_setTimeLeft_dbl (s : State) (a b : num) :
  setTimeLeft (setTimeLeft s a) b = setTimeLeft s b.
Proof. destruct s; reflexivity. Qed.

Lemma step_tick_dec_dbl (s : State) (x : Z) :
  isRunning s = true -> timeLeft s = Fin x -> 1 < x <= 2 ^ 53 ->
  step s Tick = setTimeLeft s (Fin (x - 1)).
Proof.
  intros Hr Ht Hx. rewrite step_tick. unfold tick, armed, intervalCallback.
  rewrite Hr, Ht. cbn [js_lt js_le andb].
  replace (0 <? x) with true by (symmetry; apply Z.ltb_lt; lia).
  replace (x <=? 1) with false by (symmetry; apply Z.leb_gt; lia).
  cbn [andb]. unfold js_sub, js_neg, js_add. rewrite round_exact by lia.
  do 2 f_equal; lia.
Qed.

Lemma step_tick_term_dbl (s : State) :
  isRunning s = true -> timeLeft s = Fin 1 ->
  step s Tick = setTimer (setDailyTasks s (creditTasks s (dailyTasks s))) (Fin 0) false true.
Proof.
  intros Hr Ht. rewrite step_tick. unfold tick, armed, intervalCallback.
  rewrite Hr, Ht. reflexivity.
Qed.

Lemma ticks_countdown_dbl (s : State) (t : Z) (k : nat) :
  isRunning s = true -> timeLeft s = Fin t -> t <= 2 ^ 53 -> Z.of_nat k < t ->
  ticks k s = setTimeLeft s (Fin (t - Z.of_nat k)).
Proof.
  intros Hr Ht Hb. induction k as [|k IH]; intros Hk.
  - rewrite Z.sub_0_r, <- Ht. destruct s; reflexivity.
  - rewrite ticks_S_dbl, IH by lia. rewrite step_tick_dec_dbl with (x := t - Z.of_nat k)
      by (destruct s; simpl in *; first [assumption | reflexivity | lia]).
    rewrite setTimeLeft_setTimeLeft_dbl. do 2 f_equal. lia.
Qed.

Lemma start_after_mode_dbl (s : State) (m : TimerMode) :
  step (step s (ModeChange m)) Start =
  setTimer (setMode s m) (dur_get (durations s) m) true false.
Proof.
  assert (E1 : step s (ModeChange m) = setTimer (setMode s m) (dur_get (durations s) m) false false).
  { unfold step. cbn [handle]. unfold handleModeChange. unfold syncEffect.
    destruct (_ && _); reflexivity. }
  rewrite E1. unfold step. rewrite sync_same_dbl by reflexivity. reflexivity.
Qed.

Lemma step_edit (s : State) (m : TimerMode) (v : string) :
  step s (DurationChange m v) = handleDurationChange s m v.
Proof. unfold step. apply sync_same_dbl; reflexivity. Qed.

(** What a duration edit stores. *)
Lemma edit_stored (s : State) (m : TimerMode) (value : string) :
  dur_get (tempDurations (step s (DurationChange m value))) m
    = js_mul (js_max1 (orZero (numberParseInt value))) (Fin 60) /\
  (forall m', m' <> m ->
     dur_get (tempDurations (step s (DurationChange m value))) m' = dur_get (tempDurations s) m') /\
  (forall z, parseInt value = Some z -> z * 60 <= 2 ^ 53 ->
     dur_get (tempDurations (step s (DurationChange m value))) m = Fin (Z.max 1 z * 60)) /\
  (parseInt value = None ->
     dur_get (tempDurations (step s (DurationChange m value))) m = Fin 60).
Proof.
  assert (G : forall v, dur_get (tempDurations (step s (DurationChange m v))) m
                        = js_mul (js_max1 (orZero (numberParseInt v))) (Fin 60)).
  { intros v. rewrite step_edit. destruct m; reflexivity. }
  split; [apply G|]. split.
  - intros m' Hm. rewrite step_edit. destruct m, m'; try congruence; reflexivity.
  - split; [intros z Hz Hb; rewrite G; unfold numberParseInt; rewrite Hz; apply edit_value, Hb|].
    intros Hn; rewrite G; unfold numberParseInt; rewrite Hn; reflexivity.
Qed.

Lemma run_cons_dbl (s : State) (e : Event) (es : list Event) :
  run s (e :: es) = run (step s e) es.
Proof. reflexivity. Qed.

(** ** The shape of the duration tables *)

(** A table entry as the page can produce it: [+Infinity], or a finite
    number of at least 60 seconds that is a whole number of minutes unless it
    is at least [2^53]. *)
Definition entry_ok (x : num) : Prop :=
  x = PInf \/ exists z, x = Fin z /\ 60 <= z /\ (z < 2 ^ 53 -> z mod 60 = 0).

Definition table_ok (d : Durations) : Prop := forall m, entry_ok (dur_get d m).

Definition tables_ok (s : State) : Prop := table_ok (durations s) /\ table_ok (tempDurations s).

Lemma table_ok_default : table_ok DEFAULT_DURATIONS.
Proof.
  intros m. right. destruct m; eexists; (split; [reflexivity|]); split; try lia; reflexivity.
Qed.

Lemma table_ok_set (d : Durations) (m : TimerMode) (x : num) :
  table_ok d -> entry_ok x -> table_ok (dur_set d m x).
Proof.
  intros Hd Hx m'. specialize (Hd m').
  destruct m, m'; simpl in *; assumption.
Qed.

Lemma entry_ok_edit (v : string) :
  entry_ok (js_mul (js_max1 (orZero (numberParseInt v))) (Fin 60)).
Proof.
  assert (Hy : forall y, 1 <= y -> entry_ok (js_mul (Fin y) (Fin 60))).
  { intros y Hy. cbn [js_mul]. destruct (Z.le_gt_cases (y * 60) (2 ^ 53)) as [Hl|Hg].
    - rewrite round_exact by lia. right. exists (y * 60).
      split; [reflexivity|]. split; [lia|]. intros _. apply Z_mod_mult.
    - destruct (round_big (y * 60) Hg) as [->|[z [-> Hz]]]; [left; reflexivity|].
      right. exists z. split; [reflexivity|]. split; [lia|]. intros; lia. }
  unfold numberParseInt. destruct (parseInt v) as [z|]; [|apply (Hy 1); lia].
  assert (Hf : forall w, entry_ok (js_mul (js_max1 (orZero (Fin w))) (Fin 60)))
    by (intros w; destruct w as [|p|p]; cbn [orZero js_max1]; apply Hy; lia).
  destruct (Z.le_gt_cases z 0) as [Hn|Hp].
  - destruct (round_nonpos z Hn) as [->|[w [-> _]]]; [apply (Hy 1); lia | apply Hf].
  - destruct (Z.le_gt_cases z (2 ^ 53)) as [Hl|Hg].
    + rewrite round_exact by lia. apply Hf.
    + destruct (round_big z Hg) as [->|[w [-> _]]]; [left; reflexivity | apply Hf].
Qed.

Lemma tables_ok_step (s : State) (e : Event) : tables_ok s -> tables_ok (step s e).
Proof.
  intros [Hd Ht]. unfold step.
  assert (Hh : tables_ok (handle s e)).
  { destruct e; cbn [handle];
      unfold handleModeChange, handleStart, handlePause, handleReset, handleSaveDurations,
        handleResetDurations, handleDurationChange, handleResetDailyTasks, selectTask,
        toggleSettings, tick, intervalCallback;
      try (destruct (_ : bool)); try (destruct (_ : bool));
      split; simpl; try assumption.
    - apply table_ok_default.
    - apply table_ok_set; [assumption | apply entry_ok_edit]. }
  destruct (sync_timer s (handle s e)) as [->| ->]; [exact Hh|].
  destruct Hh; split; assumption.
Qed.

Lemma tables_ok_run (s : State) (es : list Event) : tables_ok s -> tables_ok (run s es).
Proof.
  revert s. induction es as [|e es IH]; intros s H; [exact H|].
  rewrite run_cons_dbl. apply IH, tables_ok_step, H.
Qed.

Lemma tables_ok_reachable (s : State) : reachable s -> tables_ok s.
Proof.
  intros [es ->]. apply tables_ok_run. split; apply table_ok_default.
Qed.

Lemma reachable_step_dbl (s : State) (e : Event) : reachable s -> reachable (step s e).
Proof.
  intros [es ->]. exists (es ++ [e]). unfold run. rewrite fold_left_app. reflexivity.
Qed.

(** Reset, a mode change and Save all start the timer of the current mode
    from its active duration. *)
Lemma restart_timeLeft (s : State) (e : Event) :
  e = Reset \/ (exists m, e = ModeChange m) \/ e = SaveDurations ->
  timeLeft (step s e) = dur_get (durations (step s e)) (mode (step s e)).
Proof.
  intros He. unfold step.
  assert (Hh : timeLeft (handle s e) = dur_get (durations (handle s e)) (mode (handle s e))).
  { destruct He as [->|[[m ->]| ->]]; reflexivity. }
  destruct (sync_timer s (handle s e)) as [->| ->]; [exact Hh|]. reflexivity.
Qed.

(** ** The completion state *)

Definition complete_inv (s : State) : Prop :=
  isComplete s = true -> timeLeft s = Fin 0 /\ isRunning s = false.

Lemma complete_inv_step (s : State) (e : Event) : complete_inv s -> complete_inv (step s e).
Proof.
  intros H. unfold step.
  assert (Hh : complete_inv (handle s e)).
  { destruct e; cbn [handle];
      unfold handleModeChange, handleStart, handlePause, handleReset, handleSaveDurations,
        handleResetDurations, handleDurationChange, handleResetDailyTasks, selectTask,
        toggleSettings, complete_inv in *; simpl; try discriminate; try exact H.
    - intros Hc. split; [apply (H Hc) | reflexivity].
    - unfold tick, armed, intervalCallback.
      destruct (isComplete s) eqn:Ec.
      + destruct (H eq_refl) as [Ht Hr]. rewrite Hr. simpl. intros _. split; assumption.
      + destruct (_ && _); [destruct (js_le _ _)|]; simpl; rewrite ?Ec;
          try (intros Hc; discriminate Hc).
        intros _. split; reflexivity. }
  assert (Hs : isComplete (handle s e) = true ->
                durations s = durations (handle s e) /\ mode s = mode (handle s e)).
  { destruct e; cbn [handle];
      unfold handleModeChange, handleSaveDurations, tick, intervalCallback;
      try (destruct (armed s); [destruct (js_le (timeLeft s) (Fin 1))|]);
      simpl; intros Hc; first [discriminate Hc | split; reflexivity]. }
  destruct (isComplete (handle s e)) eqn:Ec.
  - rewrite sync_same_dbl by apply (Hs eq_refl). exact Hh.
  - intros Hc. destruct (sync_timer s (handle s e)) as [E|E]; rewrite E in Hc;
      simpl in Hc; congruence.
Qed.

(** ** C3: the countdown over doubles *)

(** C3 (counterexample): the countdown is not exact for every duration.
    After typing 200000000000000 minutes for focus and saving, the active
    focus duration is [D = 1.2e16] seconds; after selecting focus and
    starting, the first tick computes [1.2e16 - 1], which rounds back to
    [1.2e16] (ties to even), so no tick ever decrements and the countdown
    never ends. *)
Lemma C3_countdown_stalls :
  let s := run init [ToggleSettings; DurationChange focus "200000000000000"; SaveDurations] in
  let s1 := step (step s (ModeChange focus)) Start in
  dur_get (durations s) focus = Fin 12000000000000000 /\
  timeLeft s1 = Fin 12000000000000000 /\ isRunning s1 = true /\ isComplete s1 = false /\
  forall n, ticks n s1 = s1.
Proof.
  intros s s1.
  assert (Hs1 : step s1 Tick = s1) by (vm_compute; reflexivity).
  split; [vm_compute; reflexivity|]. split; [vm_compute; reflexivity|].
  split; [vm_compute; reflexivity|]. split; [vm_compute; reflexivity|].
  intros n. induction n as [|n IH]; [reflexivity|]. rewrite ticks_S_dbl, IH. exact Hs1.
Qed.

(** C3 (amended): for every mode [m] whose active duration is a finite
    [D] with [1 <= D <= 2^53], after selecting [m] and starting, each of the
    first [D - 1] ticks decrements the remaining time by exactly 1, with the
    timer running and not complete, and the [D]-th tick gives remaining 0,
    running false, complete true. *)
Theorem C3_countdown_exact_below_2_53 (s : State) (m : TimerMode) (D : Z) :
  dur_get (durations s) m = Fin D -> 1 <= D <= 2 ^ 53 ->
  let s1 := step (step s (ModeChange m)) Start in
  timeLeft s1 = Fin D /\
  (forall k : nat, (k < Z.to_nat D - 1)%nat ->
     timeLeft (ticks k s1) = Fin (D - Z.of_nat k) /\
     timeLeft (ticks (S k) s1) = Fin (D - Z.of_nat k - 1) /\
     isRunning (ticks (S k) s1) = true /\ isComplete (ticks (S k) s1) = false) /\
  timeLeft (ticks (Z.to_nat D) s1) = Fin 0 /\
  isRunning (ticks (Z.to_nat D) s1) = false /\
  isComplete (ticks (Z.to_nat D) s1) = true.
Proof.
  intros HD Hb s1.
  assert (E : s1 = setTimer (setMode s m) (Fin D) true false)
    by (unfold s1; rewrite start_after_mode_dbl, HD; reflexivity).
  assert (Hr : isRunning s1 = true) by (rewrite E; reflexivity).
  assert (Ht : timeLeft s1 = Fin D) by (rewrite E; reflexivity).
  assert (Hc : isComplete s1 = false) by (rewrite E; reflexivity).
  split; [exact Ht|]. split.
  - intros k Hk. rewrite ticks_S_dbl, !(ticks_countdown_dbl s1 D) by (first [assumption | lia]).
    rewrite step_tick_dec_dbl with (x := D - Z.of_nat k)
      by (destruct s1; simpl in *; first [assumption | reflexivity | lia]).
    destruct s1; simpl in *. repeat split; try assumption; f_equal; lia.
  - replace (Z.to_nat D) with (S (Z.to_nat D - 1)) by lia.
    rewrite ticks_S_dbl, (ticks_countdown_dbl s1 D) by (first [assumption | lia]).
    rewrite step_tick_term_dbl.
    + repeat split.
    + destruct s1; simpl in *; assumption.
    + simpl. f_equal. lia.
Qed.

Lemma C3_countdown_exact_below_2_53_witness :
  (dur_get (durations init) short_break = Fin 300 /\ 1 <= 300 <= 2 ^ 53) /\
  isComplete (ticks (Z.to_nat 300) (step (step init (ModeChange short_break)) Start)) = true.
Proof.
  assert (H1 : dur_get (durations init) short_break = Fin 300) by reflexivity.
  assert (H2 : 1 <= 300 <= 2 ^ 53) by lia.
  split; [split; assumption|].
  exact (proj2 (proj2 (proj2 (proj2 (C3_countdown_exact_below_2_53 init short_break 300 H1 H2))))).
Defined.

(** ** C7: the duration edit over doubles *)

(** C7 (counterexample): the stored value is not [max(1, minutes) * 60]
    for every input.  [parseInt("9007199254740991")] is the double
    9007199254740991 exactly, but the product by 60 rounds to
    540431955284459456, 4 less than [9007199254740991 * 60]. *)
Lemma C7_edit_rounds :
  numberParseInt "9007199254740991" = Fin 9007199254740991 /\
  dur_get (tempDurations (step init (DurationChange focus "9007199254740991"))) focus
    = Fin 540431955284459456 /\
  540431955284459456 <> Z.max 1 9007199254740991 * 60.
Proof.
  split; [vm_compute; reflexivity|]. split; [vm_compute; reflexivity|]. lia.
Qed.

(** C7 (amended): editing the field of mode [m] with [value] stores the
    double product [Math.max(1, Number.parseInt(value) || 0) * 60] for [m]
    and leaves the other modes unchanged; this is exactly
    [max(1, minutes) * 60] whenever the parsed [minutes] satisfy
    [minutes * 60 <= 2^53], and 60 when nothing parses; in particular
    ["-5"] and ["abc"] store 60. *)
Theorem C7_edit_stores_rounded_product (s : State) (m : TimerMode) (value : string) :
  dur_get (tempDurations (step s (DurationChange m value))) m
    = js_mul (js_max1 (orZero (numberParseInt value))) (Fin 60) /\
  (forall m', m' <> m ->
     dur_get (tempDurations (step s (DurationChange m value))) m' = dur_get (tempDurations s) m') /\
  (forall z, parseInt value = Some z -> z * 60 <= 2 ^ 53 ->
     dur_get (tempDurations (step s (DurationChange m value))) m = Fin (Z.max 1 z * 60)) /\
  (parseInt value = None ->
     dur_get (tempDurations (step s (DurationChange m value))) m = Fin 60) /\
  dur_get (tempDurations (step s (DurationChange m "-5"))) m = Fin 60 /\
  dur_get (tempDurations (step s (DurationChange m "abc"))) m = Fin 60.
Proof.
  destruct (edit_stored s m value) as [H1 [H2 [H3 H4]]].
  split; [exact H1|]. split; [exact H2|]. split; [exact H3|]. split; [exact H4|].
  split; [rewrite (proj1 (edit_stored s m "-5")) | rewrite (proj1 (edit_stored s m "abc"))];
    reflexivity.
Qed.

Lemma C7_edit_stores_rounded_product_witness :
  (parseInt "45" = Some 45 /\ 45 * 60 <= 2 ^ 53) /\
  dur_get (tempDurations (step init (DurationChange long_break "45"))) long_break = Fin 2700.
Proof.
  assert (H1 : parseInt "45" = Some 45) by reflexivity.
  assert (H2 : 45 * 60 <= 2 ^ 53) by lia.
  split; [split; assumption|].
  exact (proj1 (proj2 (proj2 (C7_edit_stores_rounded_product init long_break "45"))) 45 H1 H2).
Defined.

(** ** C10: the duration tables over doubles *)

(** C10 (counterexample): a reachable active table holds an entry that is
    not a whole number of minutes, and one that is Infinity.  Saving
    9007199254740991 minutes for focus stores 540431955284459456 seconds
    (56 more than a multiple of 60), which becomes the remaining time;
    saving [10^308] minutes stores [10^308 * 60], which overflows to
    Infinity. *)
Lemma C10_entries_not_whole_minutes :
  let s := run init [ToggleSettings; DurationChange focus "9007199254740991"; SaveDurations] in
  let big := string_of_list_ascii ("1"%char :: repeat "0"%char 308) in
  dur_get (durations s) focus = Fin 540431955284459456 /\
  540431955284459456 mod 60 = 56 /\
  timeLeft s = Fin 540431955284459456 /\
  dur_get (durations (run init [ToggleSettings; DurationChange focus big; SaveDurations])) focus = PInf.
Proof.
  intros s big.
  split; [vm_compute; reflexivity|]. split; [reflexivity|].
  split; vm_compute; reflexivity.
Qed.

(** C10 (amended): in every reachable state, every entry of the active and
    of the pending table is [+Infinity] or a finite number of at least 60
    seconds, and every finite entry below [2^53] is an exact multiple of 60;
    Reset, a mode change and Save start the remaining time at such a value. *)
Theorem C10_entries_whole_minutes_below_2_53 (s : State) :
  reachable s ->
  table_ok (durations s) /\ table_ok (tempDurations s) /\
  (forall e, e = Reset \/ (exists m, e = ModeChange m) \/ e = SaveDurations ->
     entry_ok (timeLeft (step s e))).
Proof.
  intros Hr. destruct (tables_ok_reachable s Hr) as [Hd Ht].
  split; [exact Hd|]. split; [exact Ht|].
  intros e He. rewrite restart_timeLeft by exact He.
  destruct (tables_ok_reachable _ (reachable_step_dbl s e Hr)) as [Hd' _]. apply Hd'.
Qed.

Lemma C10_entries_whole_minutes_below_2_53_witness :
  reachable (run init [ToggleSettings; DurationChange short_break "abc"; SaveDurations]) /\
  entry_ok (dur_get (durations (run init [ToggleSettings; DurationChange short_break "abc";
                                          SaveDurations])) short_break).
Proof.
  assert (Hr : reachable (run init [ToggleSettings; DurationChange short_break "abc"; SaveDurations]))
    by (exists [ToggleSettings; DurationChange short_break "abc"; SaveDurations]; reflexivity).
  split; [exact Hr|]. exact (proj1 (C10_entries_whole_minutes_below_2_53 _ Hr) short_break).
Defined.

(** ** Extras over doubles *)

(** X6: in every reachable state, a complete timer shows 0 seconds left and
    is stopped. *)
Theorem complete_means_zero_stopped (s : State) :
  reachable s -> isComplete s = true -> timeLeft s = Fin 0 /\ isRunning s = false.
Proof.
  intros [es ->]. revert es.
  assert (H : forall es s0, complete_inv s0 -> complete_inv (run s0 es)).
  { intros es. induction es as [|e es IH]; intros s0 H0; [exact H0|].
    rewrite run_cons_dbl. apply IH, complete_inv_step, H0. }
  intros es. apply H. unfold complete_inv. simpl. discriminate.
Qed.

Lemma complete_means_zero_stopped_witness :
  (reachable (ticks 300 (run init [ModeChange short_break; Start])) /\
   isComplete (ticks 300 (run init [ModeChange short_break; Start])) = true) /\
  timeLeft (ticks 300 (run init [ModeChange short_break; Start])) = Fin 0.
Proof.
  assert (Hr : reachable (ticks 300 (run init [ModeChange short_break; Start])))
    by (exists ([ModeChange short_break; Start] ++ repeat Tick 300); vm_compute; reflexivity).
  assert (Hc : isComplete (ticks 300 (run init [ModeChange short_break; Start])) = true)
    by (vm_compute; reflexivity).
  split; [split; assumption|]. exact (proj1 (complete_means_zero_stopped _ Hr Hc)).
Defined.

(** X11: a running timer with a finite [timeLeft = t], [0 < t <= 2^53]
    (for instance resumed after a pause), completes after exactly [t]
    ticks: before that the ledger and the complete flag are untouched and
    [t - k] seconds are left, and the [t]-th tick stops the timer, marks it
    complete and credits [Math.floor(durations[mode] / 60)] minutes to the
    selected task. *)
Theorem resume_completes_below_2_53 (s : State) (t : Z) :
  isRunning s = true -> timeLeft s = Fin t -> 0 < t <= 2 ^ 53 ->
  (forall k : nat, (k < Z.to_nat t)%nat ->
     dailyTasks (ticks k s) = dailyTasks s /\ isComplete (ticks k s) = isComplete s /\
     timeLeft (ticks k s) = Fin (t - Z.of_nat k)) /\
  timeLeft (ticks (Z.to_nat t) s) = Fin 0 /\
  isRunning (ticks (Z.to_nat t) s) = false /\
  isComplete (ticks (Z.to_nat t) s) = true /\
  dailyTasks (ticks (Z.to_nat t) s) = creditTasks s (dailyTasks s).
Proof.
  intros Hr Ht Hb. split.
  - intros k Hk. rewrite (ticks_countdown_dbl s t) by (first [assumption | lia]).
    repeat split.
  - replace (Z.to_nat t) with (S (Z.to_nat t - 1)) by lia.
    rewrite ticks_S_dbl, (ticks_countdown_dbl s t) by (first [assumption | lia]).
    rewrite step_tick_term_dbl.
    + repeat split.
    + destruct s; simpl in *; assumption.
    + simpl. f_equal. lia.
Qed.

Lemma resume_completes_below_2_53_witness :
  let s := step (ticks 100 (run init [Start; Tick])) Start in
  (isRunning s = true /\ timeLeft s = Fin 1399 /\ 0 < 1399 <= 2 ^ 53) /\
  dailyTasks (ticks (Z.to_nat 1399) s) = creditTasks s (dailyTasks s).
Proof.
  intros s.
  assert (Hr : isRunning s = true) by (vm_compute; reflexivity).
  assert (Ht : timeLeft s = Fin 1399) by (vm_compute; reflexivity).
  assert (Hb : 0 < 1399 <= 2 ^ 53) by lia.
  split; [split; [exact Hr | split; [exact Ht | exact Hb]]|].
  exact (proj2 (proj2 (proj2 (proj2 (resume_completes_below_2_53 s 1399 Hr Ht Hb))))).
Defined.

(** X12: the minutes field shows [Math.floor(tempDurations[m] / 60)].  After
    typing the decimal text of [n], with [1 <= n] and [n * 60 <= 2^53], it
    shows [n]; after an input that parses to nothing or to a number [<= 0]
    it shows 1. *)
Theorem duration_field_shows_input_below_2_53 (s : State) (m : TimerMode) (n : Z) :
  1 <= n -> n * 60 <= 2 ^ 53 ->
  js_floor_div (dur_get (tempDurations
     (step s (DurationChange m (string_of_list_ascii (toString n))))) m) (Fin 60) = Fin n /\
  (forall v, (parseInt v = None \/ exists z, parseInt v = Some z /\ z <= 0) ->
     js_floor_div (dur_get (tempDurations (step s (DurationChange m v))) m) (Fin 60) = Fin 1).
Proof.
  intros Hn Hb.
  destruct (edit_stored s m (string_of_list_ascii (toString n)))
    as [_ [_ [Hz _]]].
  split.
  - rewrite (Hz n).
    + replace (Z.max 1 n) with n by lia. apply floor_div_60. lia.
    + rewrite toString_nonneg by lia.
      pose proof (parseInt_numeral0 n [] ltac:(lia) (Forall_nil _)) as P.
      rewrite app_nil_r in P. apply P. intros c r H. discriminate H.
    + exact Hb.
  - intros v Hv.
    destruct (edit_stored s m v) as [_ [_ [Hz' Hn']]].
    destruct Hv as [Hv|[z [Hv Hz0]]].
    + rewrite (Hn' Hv). reflexivity.
    + rewrite (Hz' z Hv) by lia. replace (Z.max 1 z) with 1 by lia. reflexivity.
Qed.

Lemma duration_field_shows_input_below_2_53_witness :
  (1 <= 45 /\ 45 * 60 <= 2 ^ 53) /\
  js_floor_div (dur_get (tempDurations
     (step init (DurationChange long_break (string_of_list_ascii (toString 45))))) long_break)
     (Fin 60) = Fin 45.
Proof.
  assert (H1 : 1 <= 45) by lia. assert (H2 : 45 * 60 <= 2 ^ 53) by lia.
  split; [split; assumption|].
  exact (proj1 (duration_field_shows_input_below_2_53 init long_break 45 H1 H2)).
Defined.

End Dbl.
